(** * The free-game monitor of [main.py]: polling, deduplication, alerts

    A shallow embedding of the class [AdvancedGameMonitor] of
    [src/main.py].  The Python methods are written in a small monad that
    threads the state of the bot, collects the effects on the outside
    world (HTTP requests, log lines, channel messages) and carries Python
    exceptions, so that every [try]/[except] of the source is one
    [try_except] here. *)

From Stdlib Require Import QArith Qcanon.
Close Scope Qc_scope.
Close Scope Q_scope.
From stdpp Require Import gmap strings list numbers.
Open Scope string_scope.
Open Scope list_scope.
Set Warnings "-register-all".

(** ** JSON values, as [response.json()] hands them to the bot *)

(** A number is carried by its exact value: Python compares and hashes
    [int] and finite [float] by value, and takes their truth value from
    it.  An object is the list of its bindings; a key is read at its
    first binding. *)
Inductive json : Type :=
| JNull
| JBool (b : bool)
| JNum (q : Qc)
| JStr (s : string)
| JList (l : list json)
| JDict (d : list (string * json)).

(** Python exceptions the bot can meet; all are subclasses of
    [Exception], which is what every handler of the source catches.
    [ClientError] stands for whatever a failed request raises,
    [ContentTypeError] for whatever [response.json()] raises on a body
    it cannot read, [HTTPException] for whatever a failed
    [channel.send] raises: the handlers do not tell them apart.
    [asyncio.CancelledError] and the other exceptions outside
    [Exception], which no handler of the source catches, are not among
    them: the runs described here are those that are not cancelled. *)
Inductive exn : Type :=
| AttributeError
| TypeError
| KeyError (k : string)
| ValueError
| ClientError
| ContentTypeError
| HTTPException.

Inductive result (A : Type) : Type :=
| Ok (a : A)
| Raise (e : exn).
Arguments Ok {A} a.
Arguments Raise {A} e.

Definition rbind {A B} (r : result A) (k : A -> result B) : result B :=
  match r with
  | Ok a => k a
  | Raise e => Raise e
  end.

(** ** The Python operations the source applies to JSON values *)

Module Py.

(** [bool(v)]: the truth value tested by [if v:]. *)
Definition truthy (v : json) : bool :=
  match v with
  | JNull => false
  | JBool b => b
  | JNum q => negb (bool_decide (q = Q2Qc 0))
  | JStr s => negb (bool_decide (s = ""))
  | JList l => match l with [] => false | _ :: _ => true end
  | JDict d => match d with [] => false | _ :: _ => true end
  end.

Fixpoint assoc (k : string) (d : list (string * json)) : option json :=
  match d with
  | [] => None
  | (k', v) :: d' => if String.eqb k k' then Some v else assoc k d'
  end.

(** [v.get(k, default)]: only a dict has the method. *)
Definition get (v : json) (k : string) (default : json) : result json :=
  match v with
  | JDict d => Ok (match assoc k d with Some x => x | None => default end)
  | _ => Raise AttributeError
  end.

(** [v[k]] with a string [k]: a missing key is a [KeyError]; a list or
    a string takes integer indices only, and the other values are not
    subscriptable. *)
Definition getitem (v : json) (k : string) : result json :=
  match v with
  | JDict d => match assoc k d with Some x => Ok x | None => Raise (KeyError k) end
  | _ => Raise TypeError
  end.

Fixpoint chars (s : string) : list json :=
  match s with
  | EmptyString => []
  | String c s' => JStr (String c EmptyString) :: chars s'
  end.

(** [for x in v]: a list yields its elements, a string its characters
    and a dict its keys; nothing else is iterable.  (A string is cut
    byte by byte here; what the source does with a character does not
    depend on the character.) *)
Definition iter (v : json) : result (list json) :=
  match v with
  | JList l => Ok l
  | JStr s => Ok (chars s)
  | JDict d => Ok (map (fun kv => JStr (fst kv)) d)
  | _ => Raise TypeError
  end.

(** [v == 'text'] *)
Definition eq_str (v : json) (s : string) : bool :=
  match v with
  | JStr s' => String.eqb s' s
  | _ => false
  end.

End Py.

(** ** Keys of [tracked_games]

    [game_id in self.tracked_games] hashes [game_id].  [None], booleans,
    numbers and strings are hashable; [True] and [1], [False] and [0]
    are the same key; a list or a dict is unhashable. *)
Inductive key : Type :=
| KNone
| KNum (q : Qc)
| KStr (s : string).

Global Instance key_eq_dec : EqDecision key.
Proof. solve_decision. Defined.

Global Instance key_countable : Countable key.
Proof.
  refine (inj_countable'
    (fun k => match k with
              | KNone => inl tt
              | KNum q => inr (inl q)
              | KStr s => inr (inr s)
              end)
    (fun x => match x with
              | inl _ => KNone
              | inr (inl q) => KNum q
              | inr (inr s) => KStr s
              end) _).
  by intros [].
Defined.

Definition py_hash (v : json) : result key :=
  match v with
  | JNull => Ok KNone
  | JBool b => Ok (KNum (if b then Q2Qc 1 else Q2Qc 0))
  | JNum q => Ok (KNum q)
  | JStr s => Ok (KStr s)
  | JList _ => Raise TypeError
  | JDict _ => Raise TypeError
  end.

(** ** The bot, its environment and what it does to the outside world *)

(** An entry of [self.platforms]. *)
Record PlatformInfo : Type := {
  platform_name : string;
  platform_url : string;
  platform_color : Z
}.

(** The alert built by [send_game_alert].  [description] is the value
    printed between the two bold marks, [footer_tracked] the count
    printed in the footer. *)
Record Embed : Type := {
  title : string;
  description : json;
  color : Z;
  timestamp : Z;
  fields : list (string * string * bool);
  footer_tracked : nat;
  footer_icon_url : string;
  thumbnail : option json
}.

Inductive level : Type := ERROR | INFO.

Inductive logarg : Type :=
| AExn (e : exn)
| AVal (v : json)
| ANat (n : nat)
| ATime (t : Z).

(** What one run does to the outside, in order.  [EvSend e ok] is one
    call of [channel.send(embed=e)]; [ok] tells whether the call
    returned (the message was delivered) or raised. *)
Inductive event : Type :=
| EvGet (url : string)
| EvSleep (seconds : Z)
| EvLog (lvl : level) (msg : string) (args : list logarg)
| EvSend (e : Embed) (ok : bool).

(** The answer to one [session.get]: the request fails, or a response
    arrives with a status and a body; the body is [None] when
    [response.json()] raises. *)
Inductive http_result : Type :=
| ConnFail
| Resp (status : Z) (body : option json).

(** What the bot does not decide.  The [n]-th request of a run and the
    [n]-th call of [channel.send] are answered by the environment.
    [DISCORD_CHANNEL_ID] is the outcome of
    [int(os.getenv('DISCORD_CHANNEL_ID'))], which raises when the
    variable is unset or is not an integer; [get_channel] tells whether
    the client knows a channel of that id. *)
Record Env : Type := {
  http_get : string -> nat -> http_result;
  DISCORD_CHANNEL_ID : result Z;
  get_channel : Z -> bool;
  channel_send : nat -> Embed -> bool
}.

(** The fields of [self] the methods read and write, the clock behind
    [datetime.now()] (a logical clock, one tick per reading) and the
    number of requests and messages issued so far. *)
Record World : Type := {
  tracked_games : gmap key Z;
  start_time : Z;
  clock : Z;
  n_get : nat;
  n_send : nat
}.

Definition set_tracked_games (f : gmap key Z -> gmap key Z) (w : World) : World :=
  {| tracked_games := f (tracked_games w); start_time := start_time w;
     clock := clock w; n_get := n_get w; n_send := n_send w |}.

(** ** The monad of the methods: state, effects, exceptions *)

Definition M (A : Type) : Type := World -> result A * World * list event.

Definition ret {A} (a : A) : M A := fun w => (Ok a, w, []).

Definition bind {A B} (m : M A) (k : A -> M B) : M B :=
  fun w =>
    match m w with
    | (Ok a, w1, ev1) =>
        match k a w1 with
        | (r, w2, ev2) => (r, w2, ev1 ++ ev2)
        end
    | (Raise e, w1, ev1) => (Raise e, w1, ev1)
    end.

Definition lift {A} (r : result A) : M A := fun w => (r, w, []).

(** [try: m  except Exception as e: h e] *)
Definition try_except {A} (m : M A) (h : exn -> M A) : M A :=
  fun w =>
    match m w with
    | (Ok a, w1, ev1) => (Ok a, w1, ev1)
    | (Raise e, w1, ev1) =>
        match h e w1 with
        | (r, w2, ev2) => (r, w2, ev1 ++ ev2)
        end
    end.

Definition emit (ev : event) : M unit := fun w => (Ok tt, w, [ev]).

Definition gets {A} (f : World -> A) : M A := fun w => (Ok (f w), w, []).

Definition modify (f : World -> World) : M unit := fun w => (Ok tt, f w, []).

Notation "x <- m ;; k" := (bind m (fun x => k))
  (at level 100, m at next level, k at level 200, right associativity).
Notation "m ;; k" := (bind m (fun _ => k))
  (at level 100, k at level 200, right associativity).

Fixpoint for_each {A} (l : list A) (body : A -> M unit) : M unit :=
  match l with
  | [] => ret tt
  | x :: l' => body x ;; for_each l' body
  end.

(** [logger.error(...)] and [logger.info(...)] *)
Definition log (lvl : level) (msg : string) (args : list logarg) : M unit :=
  emit (EvLog lvl msg args).

(** [datetime.now()] *)
Definition datetime_now : M Z :=
  fun w =>
    (Ok (clock w),
     {| tracked_games := tracked_games w; start_time := start_time w;
        clock := (clock w + 1)%Z; n_get := n_get w; n_send := n_send w |},
     []).

(** [asyncio.sleep(s)] *)
Definition sleep (seconds : Z) : M unit := emit (EvSleep seconds).

(** ** The methods of [AdvancedGameMonitor] *)

(** [self.platforms] *)
Definition platforms : list (string * PlatformInfo) :=
  [ ("epic_games",
     {| platform_name := "Epic Games Store";
        platform_url := "https://store-site-backend-static-ipv4.ak.epicgames.com/freeGamesPromotions?locale=tr";
        platform_color := 0x2E64FE |});
    ("steam",
     {| platform_name := "Steam";
        platform_url := "https://store.steampowered.com/api/featuredcategories";
        platform_color := 0x1B2838 |}) ].

Fixpoint platforms_assoc (k : string) (d : list (string * PlatformInfo)) : option PlatformInfo :=
  match d with
  | [] => None
  | (k', v) :: d' => if String.eqb k k' then Some v else platforms_assoc k d'
  end.

(** [self.platforms[platform]] *)
Definition platforms_getitem (platform : string) : result PlatformInfo :=
  match platforms_assoc platform platforms with
  | Some info => Ok info
  | None => Raise (KeyError platform)
  end.

(** [embed.set_thumbnail(url=url)]: discord.py drops the thumbnail when
    the url is [None] and keeps the url otherwise. *)
Definition set_thumbnail (url : json) (embed : Embed) : Embed :=
  {| title := title embed; description := description embed; color := color embed;
     timestamp := timestamp embed; fields := fields embed;
     footer_tracked := footer_tracked embed; footer_icon_url := footer_icon_url embed;
     thumbnail := match url with JNull => None | _ => Some url end |}.

(** The loop over [game_data['keyImages']] of [send_game_alert]: the
    first image of type ['Thumbnail'] gives the thumbnail and ends the
    loop. *)
Fixpoint thumbnail_loop (images : list json) (embed : Embed) : result Embed :=
  match images with
  | [] => Ok embed
  | image :: rest =>
      rbind (Py.get image "type" JNull) (fun ty =>
        if Py.eq_str ty "Thumbnail"
        then rbind (Py.getitem image "url") (fun url => Ok (set_thumbnail url embed))
        else thumbnail_loop rest embed)
  end.

(** [data['data']['Catalog']['searchStore']['elements']] *)
Definition elements (data : json) : result json :=
  rbind (Py.getitem data "data") (fun d1 =>
  rbind (Py.getitem d1 "Catalog") (fun d2 =>
  rbind (Py.getitem d2 "searchStore") (fun d3 =>
  Py.getitem d3 "elements"))).

Section Bot.

Variable env : Env.

(** [self.session.get(url)], entered as a context manager *)
Definition session_get (url : string) : M (Z * option json) :=
  fun w =>
    let w' := {| tracked_games := tracked_games w; start_time := start_time w;
                 clock := clock w; n_get := S (n_get w); n_send := n_send w |} in
    match http_get env url (n_get w) with
    | ConnFail => (Raise ClientError, w', [EvGet url])
    | Resp status body => (Ok (status, body), w', [EvGet url])
    end.

(** [await response.json()] *)
Definition response_json (response : Z * option json) : M json :=
  match snd response with
  | Some data => ret data
  | None => lift (Raise ContentTypeError)
  end.

(** [await channel.send(embed=embed)] *)
Definition send (embed : Embed) : M unit :=
  fun w =>
    let ok := channel_send env (n_send w) embed in
    let w' := {| tracked_games := tracked_games w; start_time := start_time w;
                 clock := clock w; n_get := n_get w; n_send := S (n_send w) |} in
    (if ok then Ok tt else Raise HTTPException, w', [EvSend embed ok]).

(** Each method below is one [try] block with one handler; the block
    is [name_try], the method [name]. *)

Definition is_game_free_try (game_data : json) : M bool :=
  promotions <- lift (Py.get game_data "promotions" (JDict [])) ;;
  promotional_offers <- lift (Py.get promotions "promotionalOffers" (JList [])) ;;
  if Py.truthy promotional_offers then ret true else ret false.

Definition is_game_free (game_data : json) : M bool :=
  try_except (is_game_free_try game_data)
    (fun e => log ERROR "Free check error: " [AExn e] ;; ret false).

Definition send_game_alert_try (game_data : json) (platform : string) : M unit :=
  channel_id <- lift (DISCORD_CHANNEL_ID env) ;;
  if negb (get_channel env channel_id)
  then log ERROR "Channel not found" []
  else
    platform_info <- lift (platforms_getitem platform) ;;
    game_title <- lift (Py.get game_data "title" (JStr "Unknown Game")) ;;
    now <- datetime_now ;;
    tracked <- gets (fun w => size (tracked_games w)) ;;
    let embed :=
      {| title := "🎮 **FREE GAME ALERT** - " +:+ platform_name platform_info;
         description := game_title;
         color := platform_color platform_info;
         timestamp := now;
         fields := [ ("💰 Price", "**FREE** 🆓", true);
                     ("📅 Duration", "Limited Time Offer ⏰", true);
                     ("🔗 Platform", platform_name platform_info, true) ];
         footer_tracked := tracked;
         footer_icon_url := "https://i.imgur.com/3Z8jCzW.png";
         thumbnail := None |} in
    key_images <- lift (Py.get game_data "keyImages" JNull) ;;
    embed <- (if Py.truthy key_images
              then lift (rbind (Py.getitem game_data "keyImages") (fun v =>
                         rbind (Py.iter v) (fun images =>
                         thumbnail_loop images embed)))
              else ret embed) ;;
    send embed ;;
    sent_title <- lift (Py.get game_data "title" JNull) ;;
    log INFO "📢 Alert sent: " [AVal sent_title].

Definition send_game_alert (game_data : json) (platform : string) : M unit :=
  try_except (send_game_alert_try game_data platform)
    (fun e => log ERROR "Alert sending error: " [AExn e]).

Definition process_game_data_try (game_data : json) (platform : string) : M unit :=
  game_id <- lift (Py.get game_data "id" JNull) ;;
  game_title <- lift (Py.get game_data "title" (JStr "Unknown Game")) ;;
  free <- is_game_free game_data ;;
  if free
  then
    k <- lift (py_hash game_id) ;;
    tracked <- gets tracked_games ;;
    if bool_decide (tracked !! k = None)
    then
      now <- datetime_now ;;
      modify (set_tracked_games (insert k now)) ;;
      send_game_alert game_data platform ;;
      log INFO "🎯 New free game detected: " [AVal game_title]
    else ret tt
  else ret tt.

Definition process_game_data (game_data : json) (platform : string) : M unit :=
  try_except (process_game_data_try game_data platform)
    (fun e => log ERROR "Game processing error: " [AExn e]).

Definition check_epic_games_try : M unit :=
  platform_info <- lift (platforms_getitem "epic_games") ;;
  response <- session_get (platform_url platform_info) ;;
  if (fst response =? 200)%Z
  then
    data <- response_json response ;;
    games <- lift (elements data) ;;
    items <- lift (Py.iter games) ;;
    for_each items (fun game => process_game_data game "epic_games")
  else ret tt.

Definition check_epic_games : M unit :=
  try_except check_epic_games_try
    (fun e => log ERROR "Epic Games API error: " [AExn e]).

Definition check_steam_games_try : M unit :=
  platform_info <- lift (platforms_getitem "steam") ;;
  response <- session_get (platform_url platform_info) ;;
  if (fst response =? 200)%Z
  then
    data <- response_json response ;;
    log INFO "🔄 Steam store analysis completed" []
  else ret tt.

Definition check_steam_games : M unit :=
  try_except check_steam_games_try
    (fun e => log ERROR "Steam API error: " [AExn e]).

(** The body of the [tasks.loop(minutes=5)] task. *)
Definition monitor_games_try : M unit :=
  check_epic_games ;;
  sleep 15 ;;
  check_steam_games.

Definition monitor_games : M unit :=
  try_except monitor_games_try
    (fun e => log ERROR "Monitoring error: " [AExn e]).

(** The body of the [tasks.loop(hours=1)] task. *)
Definition system_status : M unit :=
  now <- datetime_now ;;
  tracked <- gets (fun w => size (tracked_games w)) ;;
  started <- gets start_time ;;
  log INFO "✅ System Status: " [ANat tracked; ATime (now - started)].

(** [tasks.loop] runs its body again and again, and stops for good
    when the body raises.  [scheduler n] is the run of the first [n]
    iterations.  Between two iterations the library waits until five
    minutes have passed since the previous one started; that wait is
    the library's, depends on how long the body took, and is not among
    the effects recorded here. *)
Fixpoint scheduler (n : nat) : M unit :=
  match n with
  | O => ret tt
  | S n' => monitor_games ;; scheduler n'
  end.

End Bot.


(** ** Observations on a run *)

(** The number of calls of [channel.send] among the effects of a run:
    the notifications dispatched. *)
Fixpoint notifications (evs : list event) : nat :=
  match evs with
  | [] => 0
  | EvSend _ _ :: evs' => S (notifications evs')
  | _ :: evs' => notifications evs'
  end.

(** The number of messages that reached the channel. *)
Fixpoint delivered (evs : list event) : nat :=
  match evs with
  | [] => 0
  | EvSend _ true :: evs' => S (delivered evs')
  | _ :: evs' => delivered evs'
  end.

(** The requests of a run, in order. *)
Fixpoint requests (evs : list event) : list string :=
  match evs with
  | [] => []
  | EvGet url :: evs' => url :: requests evs'
  | _ :: evs' => requests evs'
  end.

(** The value [is_game_free] tests: [promotions.get('promotionalOffers', [])]
    of [game_data.get('promotions', {})]. *)
Definition promotional_offers (game_data : json) : result json :=
  rbind (Py.get game_data "promotions" (JDict [])) (fun promotions =>
    Py.get promotions "promotionalOffers" (JList [])).

(** The answer of [is_game_free]. *)
Definition free (game_data : json) : bool :=
  match promotional_offers game_data with
  | Ok offers => Py.truthy offers
  | Raise _ => false
  end.

(** The key under which [process_game_data] tracks a record. *)
Definition game_key (game_data : json) : result key :=
  rbind (Py.get game_data "id" JNull) py_hash.

Definition epic_url : string :=
  "https://store-site-backend-static-ipv4.ak.epicgames.com/freeGamesPromotions?locale=tr".

Definition steam_url : string :=
  "https://store.steampowered.com/api/featuredcategories".

(** The requests of [n] cycles of the monitoring task. *)
Fixpoint cycles (n : nat) : list string :=
  match n with
  | O => []
  | S n' => epic_url :: steam_url :: cycles n'
  end.

(** The state after one more request, and after one more reading of the
    clock. *)
Definition after_get (w : World) : World :=
  {| tracked_games := tracked_games w; start_time := start_time w;
     clock := clock w; n_get := S (n_get w); n_send := n_send w |}.

Definition after_now (w : World) : World :=
  {| tracked_games := tracked_games w; start_time := start_time w;
     clock := (clock w + 1)%Z; n_get := n_get w; n_send := n_send w |}.

(** The alert can reach [channel.send]: the channel id is configured and
    the client knows the channel. *)
Definition channel_ready (env : Env) : Prop :=
  exists channel_id,
    DISCORD_CHANNEL_ID env = Ok channel_id /\ get_channel env channel_id = true.

(** ** The words of the specification *)

(** "The promotions structure contains at least one promotional-offer
    entry": the record is an object whose [promotions] is an object
    whose [promotionalOffers] is a list with an element. *)
Definition has_offer_entry (game_data : json) : bool :=
  match game_data with
  | JDict d =>
      match Py.assoc "promotions" d with
      | Some (JDict p) =>
          match Py.assoc "promotionalOffers" p with
          | Some (JList (_ :: _)) => true
          | _ => false
          end
      | _ => false
      end
  | _ => false
  end.

(** The offers of a record are not a list and yet count as true for
    Python: a non-empty text, a number other than zero, [true], a
    non-empty object. *)
Definition offers_true_not_list (game_data : json) : bool :=
  match promotional_offers game_data with
  | Ok (JList _) => false
  | Ok offers => Py.truthy offers
  | Raise _ => false
  end.

(** The record is not an object, or it has promotions that are not an
    object. *)
Definition promotions_unreadable (game_data : json) : bool :=
  match game_data with
  | JDict d =>
      match Py.assoc "promotions" d with
      | Some (JDict _) => false
      | Some _ => true
      | None => false
      end
  | _ => true
  end.

(** The images on which the loop of [send_game_alert] does not raise:
    objects, up to the first one of type ['Thumbnail'], which has a
    url. *)
Fixpoint images_usable (images : list json) : bool :=
  match images with
  | [] => true
  | image :: rest =>
      match Py.get image "type" JNull with
      | Ok ty =>
          if Py.eq_str ty "Thumbnail"
          then match Py.getitem image "url" with
               | Ok _ => true
               | Raise _ => false
               end
          else images_usable rest
      | Raise _ => false
      end
  end.

(** The record has no images to speak of (no [keyImages], or a value
    that counts as false), or a list of usable images. *)
Definition images_ok (game_data : json) : bool :=
  match Py.get game_data "keyImages" JNull with
  | Ok v =>
      if Py.truthy v
      then match Py.iter v with
           | Ok images => images_usable images
           | Raise _ => false
           end
      else true
  | Raise _ => false
  end.

(** An [ERROR] line among the effects of a run. *)
Fixpoint error_logged (evs : list event) : bool :=
  match evs with
  | [] => false
  | EvLog ERROR _ _ :: _ => true
  | _ :: evs' => error_logged evs'
  end.

(** "The source adapter fails (transport error, non-success status, or
    absent/malformed expected response path)": the answer to the request
    is not a 200 response whose body has a list at the expected path.
    [catalog_records] gives that list when there is one. *)
Definition catalog_records (r : http_result) : option (list json) :=
  match r with
  | ConnFail => None
  | Resp status body =>
      if (status =? 200)%Z
      then match body with
           | Some data =>
               match elements data with
               | Ok (JList l) => Some l
               | _ => None
               end
           | None => None
           end
      else None
  end.

(** ** The scenarios of the specification *)

(** A response body with [games] at the expected path. *)
Definition catalog (games : json) : json :=
  JDict [("data", JDict [("Catalog", JDict [("searchStore",
    JDict [("elements", games)])])])].

(** A record with an id and offers, under the key the source reads. *)
Definition record (id : string) (offers : list json) : json :=
  JDict [("id", JStr id);
         ("promotions", JDict [("promotionalOffers", JList offers)])].

(** The records of scenario A as the specification spells them, with
    the key [offers]. *)
Definition spelled_record (id : string) (offers : list json) : json :=
  JDict [("id", JStr id);
         ("promotions", JDict [("offers", JList offers)])].

(** A free record without an id. *)
Definition record_without_id : json :=
  JDict [("title", JStr "Mystery Game");
         ("promotions", JDict [("promotionalOffers", JList [JDict []])])].

(** A free record whose images are a text, not a list. *)
Definition record_with_text_images : json :=
  JDict [("id", JStr "A1");
         ("keyImages", JStr "cover.png");
         ("promotions", JDict [("promotionalOffers", JList [JDict []])])].

(** A record whose offers are not a list. *)
Definition record_with_text_offers : json :=
  JDict [("id", JStr "A3");
         ("promotions", JDict [("promotionalOffers", JStr "soon")])].

Definition fresh_world : World :=
  {| tracked_games := ∅; start_time := 0; clock := 0; n_get := 0; n_send := 0 |}.

(** An environment where Epic answers [body] with status 200 to every
    request, Steam is unreachable, and the channel works iff [ok]. *)
Definition env_with (body : json) (ok : bool) : Env :=
  {| http_get := fun url _ =>
       if String.eqb url epic_url then Resp 200 (Some body) else ConnFail;
     DISCORD_CHANNEL_ID := Ok 42%Z;
     get_channel := fun _ => true;
     channel_send := fun _ _ => ok |}.

(** An environment where nothing can be fetched. *)
Definition env_offline : Env :=
  {| http_get := fun _ _ => ConnFail;
     DISCORD_CHANNEL_ID := Ok 42%Z;
     get_channel := fun _ => true;
     channel_send := fun _ _ => true |}.

Ltac unfold_monad :=
  unfold bind, ret, lift, try_except, log, sleep, emit, gets, modify, datetime_now.

(** ** Further observations *)

(** The lines "New free game detected" of a run. *)
Fixpoint detections (evs : list event) : nat :=
  match evs with
  | [] => 0
  | EvLog INFO msg _ :: evs' =>
      if String.eqb msg "🎯 New free game detected: "
      then S (detections evs') else detections evs'
  | _ :: evs' => detections evs'
  end.

(** The lines "Alert sent" of a run. *)
Fixpoint alerts_sent (evs : list event) : nat :=
  match evs with
  | [] => 0
  | EvLog INFO msg _ :: evs' =>
      if String.eqb msg "📢 Alert sent: "
      then S (alerts_sent evs') else alerts_sent evs'
  | _ :: evs' => alerts_sent evs'
  end.

(** The requests and the pauses of a run, in order; a pause is a call
    of [asyncio.sleep], given by its length. *)
Fixpoint timeline (evs : list event) : list (string + Z) :=
  match evs with
  | [] => []
  | EvGet url :: evs' => inl url :: timeline evs'
  | EvSleep seconds :: evs' => inr seconds :: timeline evs'
  | _ :: evs' => timeline evs'
  end.

(** The key a record brings into the store, if any: the record must be
    free and its id hashable. *)
Definition tracked_key (game_data : json) : option key :=
  if free game_data
  then match game_key game_data with
       | Ok k => Some k
       | Raise _ => None
       end
  else None.

Definition free_keys (items : list json) : list key := omap tracked_key items.

(** An image the loop of [send_game_alert] steps over: an object whose
    type is not ['Thumbnail']. *)
Definition not_thumbnail (image : json) : bool :=
  match Py.get image "type" JNull with
  | Ok ty => negb (Py.eq_str ty "Thumbnail")
  | Raise _ => false
  end.

(** The requests and pauses of [n] cycles of the monitoring task. *)
Fixpoint schedule (n : nat) : list (string + Z) :=
  match n with
  | O => []
  | S n' => inl epic_url :: inr 15%Z :: inl steam_url :: schedule n'
  end.

(** The books of a run are in order: no more notifications than
    detections, one "Alert sent" line per delivered message, and no
    notification at all without a channel. *)
Definition accounted (env : Env) (evs : list event) : Prop :=
  notifications evs <= detections evs /\
  alerts_sent evs = delivered evs /\
  (~ channel_ready env -> notifications evs = 0).

(** An environment where Epic answers [body] with status 200 but the
    channel id is not configured. *)
Definition env_without_channel (body : json) : Env :=
  {| http_get := fun url _ =>
       if String.eqb url epic_url then Resp 200 (Some body) else ConnFail;
     DISCORD_CHANNEL_ID := Raise TypeError;
     get_channel := fun _ => true;
     channel_send := fun _ _ => true |}.

(** ** Basic facts *)

Lemma notifications_app evs1 evs2 :
  notifications (evs1 ++ evs2) = notifications evs1 + notifications evs2.
Proof.
  induction evs1 as [|ev evs1 IH]; simpl; [done|].
  destruct ev; simpl; lia.
Qed.

Lemma delivered_app evs1 evs2 :
  delivered (evs1 ++ evs2) = delivered evs1 + delivered evs2.
Proof.
  induction evs1 as [|ev evs1 IH]; simpl; [done|].
  destruct ev as [| | |e []]; simpl; lia.
Qed.

Lemma requests_app evs1 evs2 :
  requests (evs1 ++ evs2) = requests evs1 ++ requests evs2.
Proof.
  induction evs1 as [|ev evs1 IH]; simpl; [done|].
  destruct ev; simpl; by rewrite ?IH.
Qed.

Lemma delivered_le_notifications evs : delivered evs <= notifications evs.
Proof.
  induction evs as [|ev evs IH]; simpl; [done|].
  destruct ev as [| | |e []]; simpl; lia.
Qed.

Lemma free_is_dict game_data :
  free game_data = true -> exists d, game_data = JDict d.
Proof.
  unfold free, promotional_offers.
  destruct game_data; simpl; try discriminate. eauto.
Qed.

Lemma game_key_is_dict game_data k :
  game_key game_data = Ok k -> exists d, game_data = JDict d.
Proof.
  unfold game_key. destruct game_data; simpl; try discriminate. eauto.
Qed.

(** A handler that logs turns a raising block into a returning method. *)
Lemma try_except_logs (m : M unit) msg w e w1 evs1 :
  m w = (Raise e, w1, evs1) ->
  try_except m (fun e => log ERROR msg [AExn e]) w =
    (Ok tt, w1, evs1 ++ [EvLog ERROR msg [AExn e]]).
Proof. intros Hm. unfold try_except. by rewrite Hm. Qed.

Lemma try_except_returns {A} (m : M A) h w a w1 evs1 :
  m w = (Ok a, w1, evs1) -> try_except m h w = (Ok a, w1, evs1).
Proof. intros Hm. unfold try_except. by rewrite Hm. Qed.

Section BotFacts.

Variable env : Env.

(** [is_game_free] returns, changes nothing, and at most logs. *)
Lemma is_game_free_run game_data w :
  is_game_free game_data w =
    (Ok (free game_data), w,
     match promotional_offers game_data with
     | Ok _ => []
     | Raise e => [EvLog ERROR "Free check error: " [AExn e]]
     end).
Proof.
  unfold is_game_free, is_game_free_try, free, promotional_offers. unfold_monad.
  destruct (Py.get game_data "promotions" (JDict [])) as [p|e]; simpl; [|done].
  destruct (Py.get p "promotionalOffers" (JList [])) as [o|e]; simpl; [|done].
  by destruct (Py.truthy o).
Qed.

(** [send_game_alert] never raises and never touches the store; it
    calls [channel.send] at most once. *)
Lemma send_game_alert_run game_data platform w :
  exists w' evs,
    send_game_alert env game_data platform w = (Ok tt, w', evs) /\
    tracked_games w' = tracked_games w /\
    notifications evs <= 1.
Proof.
  unfold send_game_alert, send_game_alert_try, send. unfold_monad.
  repeat (case_match; simplify_eq/=); eauto 10.
Qed.

(** It issues no request either. *)
Lemma send_game_alert_no_request game_data platform w r w' evs :
  send_game_alert env game_data platform w = (r, w', evs) ->
  n_get w' = n_get w /\ requests evs = [].
Proof.
  unfold send_game_alert, send_game_alert_try, send. unfold_monad.
  repeat (case_match; simplify_eq/=); intros; simplify_eq/=; eauto.
Qed.

(** With a channel at hand, a known platform and no images, the alert
    is sent. *)
Lemma send_game_alert_sends d platform w :
  channel_ready env ->
  is_Some (platforms_assoc platform platforms) ->
  Py.assoc "keyImages" d = None ->
  exists w' evs,
    send_game_alert env (JDict d) platform w = (Ok tt, w', evs) /\
    tracked_games w' = tracked_games w /\
    notifications evs = 1.
Proof.
  intros (cid & Hid & Hch) [info Hinfo] Himg.
  unfold send_game_alert, send_game_alert_try, send, platforms_getitem. unfold_monad.
  rewrite Hid, Hch, Hinfo. simpl. rewrite Himg. simpl.
  destruct (channel_send env _ _); simpl; eauto 10.
Qed.

(** An alert that delivers nothing leaves an [ERROR] line. *)
Lemma send_game_alert_failure_logged game_data platform w r w' evs :
  send_game_alert env game_data platform w = (r, w', evs) ->
  delivered evs = 0 ->
  error_logged evs = true.
Proof.
  unfold send_game_alert, send_game_alert_try, send. unfold_monad.
  repeat (case_match; simplify_eq/=); intros; simplify_eq/=; eauto.
Qed.

(** *** One record *)

Lemma process_game_data_not_free game_data platform w :
  free game_data = false ->
  exists evs,
    process_game_data env game_data platform w = (Ok tt, w, evs) /\
    notifications evs = 0.
Proof.
  intros Hfree.
  unfold process_game_data, process_game_data_try. unfold_monad.
  destruct game_data; simpl; eauto.
  rewrite is_game_free_run, Hfree.
  destruct (promotional_offers _); simpl; eauto.
Qed.

Lemma process_game_data_unhashable game_data platform w e :
  free game_data = true ->
  game_key game_data = Raise e ->
  process_game_data env game_data platform w =
    (Ok tt, w, [EvLog ERROR "Game processing error: " [AExn e]]).
Proof.
  intros Hfree Hkey. destruct (free_is_dict _ Hfree) as [d ->].
  unfold process_game_data, process_game_data_try. unfold_monad.
  unfold game_key in Hkey. simpl in *.
  rewrite is_game_free_run, Hfree.
  unfold free in Hfree. destruct (promotional_offers _); [|done].
  simpl. rewrite Hkey. done.
Qed.

Lemma process_game_data_seen game_data platform w k :
  free game_data = true ->
  game_key game_data = Ok k ->
  is_Some (tracked_games w !! k) ->
  process_game_data env game_data platform w = (Ok tt, w, []).
Proof.
  intros Hfree Hkey [t Ht]. destruct (free_is_dict _ Hfree) as [d ->].
  unfold process_game_data, process_game_data_try. unfold_monad.
  unfold game_key in Hkey. simpl in *.
  rewrite is_game_free_run, Hfree.
  unfold free in Hfree. destruct (promotional_offers _); [|done].
  simpl. rewrite Hkey. simpl.
  rewrite bool_decide_eq_false_2; [done|]. by rewrite Ht.
Qed.

Lemma process_game_data_new game_data platform w k :
  free game_data = true ->
  game_key game_data = Ok k ->
  tracked_games w !! k = None ->
  exists w' evs title,
    send_game_alert env game_data platform
      (set_tracked_games (insert k (clock w)) (after_now w)) = (Ok tt, w', evs) /\
    process_game_data env game_data platform w =
      (Ok tt, w', evs ++ [EvLog INFO "🎯 New free game detected: " [AVal title]]) /\
    tracked_games w' = <[k := clock w]> (tracked_games w).
Proof.
  intros Hfree Hkey Hnew. destruct (free_is_dict _ Hfree) as [d ->].
  destruct (send_game_alert_run (JDict d) platform
    (set_tracked_games (insert k (clock w)) (after_now w))) as (w' & evs & Hrun & Hst & _).
  exists w', evs. eexists. split; [done|].
  unfold process_game_data, process_game_data_try. unfold_monad.
  unfold game_key in Hkey. simpl in *.
  rewrite is_game_free_run, Hfree.
  unfold free in Hfree. destruct (promotional_offers _); [|done].
  simpl. rewrite Hkey. simpl.
  rewrite bool_decide_eq_true_2 by done.
  unfold after_now in Hrun. rewrite Hrun. simpl. done.
Qed.

(** The block of [process_game_data] can only raise before it has done
    anything. *)
Lemma process_game_data_try_raises game_data platform w e w' evs :
  process_game_data_try env game_data platform w = (Raise e, w', evs) ->
  w' = w /\ evs = [].
Proof.
  unfold process_game_data_try. unfold_monad.
  destruct game_data; simpl; try (intros; by simplify_eq).
  rewrite is_game_free_run.
  destruct (free (JDict d)) eqn:Hfree; [|intros; by simplify_eq].
  unfold free in Hfree. destruct (promotional_offers _); [|done]. simpl.
  destruct (py_hash _) as [k|e']; simpl; [|intros; by simplify_eq].
  case_bool_decide; [|intros; by simplify_eq].
  simpl.
  match goal with
  | |- context [send_game_alert env ?g ?p ?w0] =>
      destruct (send_game_alert_run g p w0) as (w2 & evs2 & -> & _)
  end.
  intros; by simplify_eq.
Qed.

(** Whatever the record, [process_game_data] returns; it only adds to
    the store, sends at most one alert and issues no request. *)
Lemma process_game_data_run game_data platform w :
  exists w' evs,
    process_game_data env game_data platform w = (Ok tt, w', evs) /\
    tracked_games w ⊆ tracked_games w' /\
    notifications evs <= 1 /\
    n_get w' = n_get w /\ requests evs = [].
Proof.
  destruct (free game_data) eqn:Hfree.
  - destruct (game_key game_data) as [k|e] eqn:Hkey.
    + destruct (tracked_games w !! k) as [t|] eqn:Hk.
      * exists w, []. rewrite (process_game_data_seen _ _ _ k) by eauto.
        repeat split; simpl; auto.
      * destruct (process_game_data_new _ platform _ _ Hfree Hkey Hk)
          as (w' & evs & t & Halert & -> & Hst).
        destruct (send_game_alert_run game_data platform
          (set_tracked_games (insert k (clock w)) (after_now w)))
          as (w2 & evs2 & Hrun & _ & Hle).
        rewrite Halert in Hrun. simplify_eq.
        destruct (send_game_alert_no_request _ _ _ _ _ _ Halert) as [Hn Hreq].
        exists w2, (evs2 ++ [EvLog INFO "🎯 New free game detected: " [AVal t]]).
        rewrite notifications_app, requests_app, Hreq, Hst. simpl.
        repeat split; [by apply insert_subseteq|lia|done].
    + rewrite (process_game_data_unhashable _ _ _ e) by done.
      exists w. eexists. repeat split; simpl; auto.
  - destruct (process_game_data_not_free game_data platform w Hfree) as (evs & Hrun & Hn).
    exists w, evs. repeat split; auto; try lia.
    revert Hrun. unfold process_game_data, process_game_data_try. unfold_monad.
    destruct game_data; simpl; try (intros; by simplify_eq).
    rewrite is_game_free_run, Hfree.
    destruct (promotional_offers _); simpl; intros; by simplify_eq.
Qed.

(** *** The records of one response *)

Lemma for_each_app {A} (l1 l2 : list A) (body : A -> M unit) w :
  for_each (l1 ++ l2) body w = (for_each l1 body ;; for_each l2 body) w.
Proof.
  revert w. induction l1 as [|x l1 IH]; intros w; simpl.
  - unfold_monad. by destruct (for_each l2 body w) as [[r w'] evs].
  - unfold bind in *. destruct (body x w) as [[[[]|e] w1] evs1]; [|done].
    rewrite IH.
    destruct (for_each l1 body w1) as [[[[]|e] w2] evs2]; [|done].
    destruct (for_each l2 body w2) as [[r w3] evs3].
    by rewrite app_assoc.
Qed.

Lemma for_each_process_run platform l w :
  exists w' evs,
    for_each l (fun game => process_game_data env game platform) w = (Ok tt, w', evs) /\
    tracked_games w ⊆ tracked_games w' /\
    notifications evs <= length l /\
    n_get w' = n_get w /\ requests evs = [].
Proof.
  revert w. induction l as [|g l IH]; intros w; simpl.
  - exists w, []. by repeat split.
  - destruct (process_game_data_run g platform w) as (w1 & evs1 & Hg & Hsub1 & Hle1 & Hn1 & Hr1).
    destruct (IH w1) as (w2 & evs2 & Hl & Hsub2 & Hle2 & Hn2 & Hr2).
    exists w2, (evs1 ++ evs2). unfold bind. rewrite Hg, Hl.
    rewrite notifications_app, requests_app, Hr1, Hr2.
    repeat split; [by etrans|lia|congruence].
Qed.

(** Records that are not free leave no trace but log lines. *)
Lemma for_each_not_free platform l w :
  Forall (fun game => free game = false) l ->
  exists evs,
    for_each l (fun game => process_game_data env game platform) w = (Ok tt, w, evs) /\
    notifications evs = 0.
Proof.
  induction 1 as [|g l Hg _ IH]; simpl.
  - by exists [].
  - destruct (process_game_data_not_free g platform w Hg) as (evs1 & Hrun1 & Hn1).
    destruct IH as (evs2 & Hrun2 & Hn2).
    exists (evs1 ++ evs2). unfold bind. rewrite Hrun1, Hrun2.
    rewrite notifications_app. split; [done|lia].
Qed.

(** *** One source *)

Lemma chars_not_free s : Forall (fun game => free game = false) (Py.chars s).
Proof. induction s; simpl; by constructor. Qed.

Lemma keys_not_free (d : list (string * json)) :
  Forall (fun game => free game = false) (map (fun kv => JStr (fst kv)) d).
Proof. induction d; simpl; by constructor. Qed.

(** A 200 response with iterable elements: the records are processed
    one after the other. *)
Lemma check_epic_games_items w data games items w' evs :
  http_get env epic_url (n_get w) = Resp 200 (Some data) ->
  elements data = Ok games ->
  Py.iter games = Ok items ->
  for_each items (fun game => process_game_data env game "epic_games") (after_get w)
    = (Ok tt, w', evs) ->
  check_epic_games env w = (Ok tt, w', EvGet epic_url :: evs).
Proof.
  intros Hget Hel Hit Hfor.
  unfold check_epic_games, check_epic_games_try, session_get, response_json.
  unfold_monad. simpl. fold epic_url. rewrite Hget. simpl.
  rewrite Hel, Hit. fold (after_get w). by rewrite Hfor.
Qed.

(** Whatever the answer, [check_epic_games] returns after one request
    and only adds to the store. *)
Lemma check_epic_games_run w :
  exists w' evs,
    check_epic_games env w = (Ok tt, w', EvGet epic_url :: evs) /\
    tracked_games w ⊆ tracked_games w' /\
    n_get w' = S (n_get w) /\ requests evs = [].
Proof.
  destruct (http_get env epic_url (n_get w)) as [|status body] eqn:Hget.
  2: destruct (status =? 200)%Z eqn:Hst.
  2: destruct body as [data|].
  2: destruct (elements data) as [games|e] eqn:Hel.
  2: destruct (Py.iter games) as [items|e] eqn:Hit.
  2: { apply Z.eqb_eq in Hst as ->.
       destruct (for_each_process_run "epic_games" items (after_get w))
         as (w' & evs & Hfor & Hsub & _ & Hn & Hreq).
       exists w', evs. by rewrite (check_epic_games_items _ _ _ _ _ _ Hget Hel Hit Hfor). }
  all: exists (after_get w); eexists.
  all: unfold check_epic_games, check_epic_games_try, session_get, response_json.
  all: unfold_monad; simpl; fold epic_url; rewrite Hget; simpl.
  all: rewrite ?Hst; simpl; rewrite ?Hel; simpl; rewrite ?Hit; simpl.
  all: repeat split; reflexivity.
Qed.

(** A failed fetch leaves the store as it was and sends nothing. *)
Lemma check_epic_games_fails w :
  catalog_records (http_get env epic_url (n_get w)) = None ->
  exists evs,
    check_epic_games env w = (Ok tt, after_get w, EvGet epic_url :: evs) /\
    notifications evs = 0 /\ requests evs = [].
Proof.
  intros Hfail.
  destruct (http_get env epic_url (n_get w)) as [|status body] eqn:Hget;
    simpl in Hfail.
  2: destruct (status =? 200)%Z eqn:Hst.
  2: destruct body as [data|].
  2: destruct (elements data) as [games|e] eqn:Hel.
  2: destruct (Py.iter games) as [items|e] eqn:Hit.
  2: { apply Z.eqb_eq in Hst as ->.
       assert (Forall (fun game => free game = false) items) as Hnot.
       { destruct games; simpl in *; simplify_eq;
           auto using chars_not_free, keys_not_free. }
       destruct (for_each_not_free "epic_games" items (after_get w) Hnot)
         as (evs & Hfor & Hn).
       destruct (for_each_process_run "epic_games" items (after_get w))
         as (w' & evs' & Hfor' & _ & _ & _ & Hreq).
       rewrite Hfor in Hfor'. simplify_eq.
       exists evs'. by rewrite (check_epic_games_items _ _ _ _ _ _ Hget Hel Hit Hfor). }
  all: eexists.
  all: unfold check_epic_games, check_epic_games_try, session_get, response_json.
  all: unfold_monad; simpl; fold epic_url; rewrite Hget; simpl.
  all: rewrite ?Hst; simpl; rewrite ?Hel; simpl; rewrite ?Hit; simpl.
  all: repeat split; reflexivity.
Qed.

(** [check_steam_games] issues its request and stops there. *)
Lemma check_steam_games_run w :
  exists evs,
    check_steam_games env w = (Ok tt, after_get w, EvGet steam_url :: evs) /\
    notifications evs = 0 /\ requests evs = [].
Proof.
  unfold check_steam_games, check_steam_games_try, session_get, response_json.
  unfold_monad. simpl. fold steam_url.
  destruct (http_get env steam_url (n_get w)) as [|status [data|]]; simpl;
    try destruct (status =? 200)%Z; simpl; eauto.
Qed.

(** *** One cycle, and the loop *)

Lemma monitor_games_run w w1 evs1 :
  check_epic_games env w = (Ok tt, w1, evs1) ->
  exists evs2,
    check_steam_games env w1 = (Ok tt, after_get w1, EvGet steam_url :: evs2) /\
    monitor_games env w =
      (Ok tt, after_get w1, evs1 ++ EvSleep 15 :: EvGet steam_url :: evs2) /\
    notifications evs2 = 0 /\ requests evs2 = [].
Proof.
  intros Hepic.
  destruct (check_steam_games_run w1) as (evs2 & Hsteam & Hn & Hreq).
  exists evs2. split; [done|]. split; [|done].
  unfold monitor_games, monitor_games_try. unfold_monad.
  by rewrite Hepic, Hsteam.
Qed.

Lemma monitor_games_total w :
  exists w' evs,
    monitor_games env w = (Ok tt, w', evs) /\
    tracked_games w ⊆ tracked_games w' /\
    n_get w' = S (S (n_get w)) /\
    requests evs = [epic_url; steam_url].
Proof.
  destruct (check_epic_games_run w) as (w1 & evs1 & Hepic & Hsub & Hn & Hreq).
  destruct (monitor_games_run _ _ _ Hepic) as (evs2 & _ & Hrun & _ & Hreq2).
  exists (after_get w1). eexists. split; [exact Hrun|].
  simpl. rewrite requests_app. simpl. rewrite Hreq, Hreq2, Hn. by repeat split.
Qed.

Lemma scheduler_run n w :
  exists w' evs,
    scheduler env n w = (Ok tt, w', evs) /\
    tracked_games w ⊆ tracked_games w' /\
    requests evs = cycles n.
Proof.
  revert w. induction n as [|n IH]; intros w; simpl.
  - exists w, []. by repeat split.
  - destruct (monitor_games_total w) as (w1 & evs1 & Hrun & Hsub & _ & Hreq).
    destruct (IH w1) as (w2 & evs2 & Hrest & Hsub2 & Hreq2).
    exists w2. eexists. unfold_monad. rewrite Hrun, Hrest.
    split; [done|]. split; [by etrans|].
    rewrite requests_app. simpl. by rewrite Hreq, Hreq2.
Qed.

End BotFacts.

(** ** The Steam source *)

(** C9.  The Steam check is a stub: whatever the answer to its request,
    it returns with the store as it was and without a notification; in
    a whole cycle the store and the notifications are those of the Epic
    check alone. *)
Theorem steam_check_is_a_stub env w :
  (exists w' evs,
     check_steam_games env w = (Ok tt, w', evs) /\
     tracked_games w' = tracked_games w /\
     notifications evs = 0) /\
  (exists w1 evs1 w2 evs2,
     check_epic_games env w = (Ok tt, w1, evs1) /\
     monitor_games env w = (Ok tt, w2, evs2) /\
     tracked_games w2 = tracked_games w1 /\
     notifications evs2 = notifications evs1).
Proof.
  split.
  - destruct (check_steam_games_run env w) as (evs & Hrun & Hn & _).
    exists (after_get w). eexists. split; [exact Hrun|]. by split.
  - destruct (check_epic_games_run env w) as (w1 & evs1 & Hepic & _).
    destruct (monitor_games_run env _ _ _ Hepic) as (evs2 & _ & Hrun & Hn & _).
    do 4 eexists. split; [exact Hepic|]. split; [exact Hrun|]. split; [done|].
    rewrite notifications_app. simpl. lia.
Qed.

(** ** Failures *)

(** C7.  When the fetch of the Epic catalog fails (the request fails,
    the status is not 200, the body is not JSON, or there is no list at
    the expected path), the Epic check returns, and so does the whole
    cycle, with the store unchanged and no notification. *)
Theorem fetch_failure_is_atomic env w :
  catalog_records (http_get env epic_url (n_get w)) = None ->
  (exists w1 evs1,
     check_epic_games env w = (Ok tt, w1, evs1) /\
     tracked_games w1 = tracked_games w /\
     notifications evs1 = 0) /\
  (exists w2 evs2,
     monitor_games env w = (Ok tt, w2, evs2) /\
     tracked_games w2 = tracked_games w /\
     notifications evs2 = 0).
Proof.
  intros Hfail.
  destruct (check_epic_games_fails env w Hfail) as (evs1 & Hepic & Hn1 & _).
  destruct (monitor_games_run env _ _ _ Hepic) as (evs2 & _ & Hrun & Hn2 & _).
  split.
  - do 2 eexists. split; [exact Hepic|]. by split.
  - do 2 eexists. split; [exact Hrun|]. split; [done|].
    rewrite notifications_app. simpl. lia.
Qed.

Lemma fetch_failure_is_atomic_witness :
  exists w2 evs2,
    monitor_games env_offline fresh_world = (Ok tt, w2, evs2) /\
    tracked_games w2 = tracked_games fresh_world /\
    notifications evs2 = 0.
Proof.
  apply (fetch_failure_is_atomic env_offline fresh_world). reflexivity.
Defined.

(** C6.  The monitoring loop survives every error of a stage.  The run
    of any number of cycles returns, and each cycle has issued the Epic
    request and then the Steam request.  An exception raised in the
    block of a method is caught by the handler of that method and
    logged: by [check_epic_games], after which the Steam request of the
    same cycle follows; by [check_steam_games]; by [process_game_data],
    [send_game_alert] and [is_game_free]. *)
Theorem scheduler_survives_stage_errors env :
  (forall n w, exists w' evs,
     scheduler env n w = (Ok tt, w', evs) /\ requests evs = cycles n) /\
  (forall w e w1 evs1,
     check_epic_games_try env w = (Raise e, w1, evs1) ->
     exists evs2,
       monitor_games env w =
         (Ok tt, after_get w1,
          (evs1 ++ [EvLog ERROR "Epic Games API error: " [AExn e]]) ++
          EvSleep 15 :: EvGet steam_url :: evs2)) /\
  (forall w w1 evs1 e w2 evs2,
     check_epic_games env w = (Ok tt, w1, evs1) ->
     check_steam_games_try env w1 = (Raise e, w2, evs2) ->
     monitor_games env w =
       (Ok tt, w2,
        evs1 ++ EvSleep 15 :: evs2 ++ [EvLog ERROR "Steam API error: " [AExn e]])) /\
  (forall game_data platform w e w1 evs1,
     process_game_data_try env game_data platform w = (Raise e, w1, evs1) ->
     process_game_data env game_data platform w =
       (Ok tt, w1, evs1 ++ [EvLog ERROR "Game processing error: " [AExn e]])) /\
  (forall game_data platform w e w1 evs1,
     send_game_alert_try env game_data platform w = (Raise e, w1, evs1) ->
     send_game_alert env game_data platform w =
       (Ok tt, w1, evs1 ++ [EvLog ERROR "Alert sending error: " [AExn e]])) /\
  (forall game_data w e w1 evs1,
     is_game_free_try game_data w = (Raise e, w1, evs1) ->
     is_game_free game_data w =
       (Ok false, w1, evs1 ++ [EvLog ERROR "Free check error: " [AExn e]])).
Proof.
  repeat split.
  - intros n w. destruct (scheduler_run env n w) as (w' & evs & Hrun & _ & Hreq).
    by exists w', evs.
  - intros w e w1 evs1 Htry.
    pose proof (try_except_logs _ "Epic Games API error: " _ _ _ _ Htry) as Hepic.
    destruct (monitor_games_run env _ _ _ Hepic) as (evs2 & _ & Hrun & _).
    by exists evs2.
  - intros w w1 evs1 e w2 evs2 Hepic Htry.
    pose proof (try_except_logs _ "Steam API error: " _ _ _ _ Htry) as Hsteam.
    fold (check_steam_games env) in Hsteam.
    unfold monitor_games, monitor_games_try. unfold_monad.
    by rewrite Hepic, Hsteam.
  - intros game_data platform w e w1 evs1 Htry.
    by apply try_except_logs.
  - intros game_data platform w e w1 evs1 Htry.
    by apply try_except_logs.
  - intros game_data w e w1 evs1 Htry.
    unfold is_game_free, try_except. rewrite Htry. by unfold_monad.
Qed.

Lemma scheduler_survives_stage_errors_witness :
  exists evs2,
    monitor_games env_offline fresh_world =
      (Ok tt, after_get (after_get fresh_world),
       ([EvGet epic_url] ++ [EvLog ERROR "Epic Games API error: " [AExn ClientError]]) ++
       EvSleep 15 :: EvGet steam_url :: evs2).
Proof.
  apply (proj1 (proj2 (scheduler_survives_stage_errors env_offline))
           fresh_world ClientError (after_get fresh_world) [EvGet epic_url]).
  reflexivity.
Defined.

(** C10.  One record that fails does not stop the others.  In a list of
    records, when the block of [process_game_data] raises on a record,
    the exception is caught and logged within the processing of that
    record, which leaves the state as the earlier records left it; the
    later records are processed from there, and what the earlier
    records added to the store is still in it at the end. *)
Theorem record_failure_is_isolated env platform l1 game_data l2 w w1 evs1 e wg evsg :
  for_each l1 (fun game => process_game_data env game platform) w = (Ok tt, w1, evs1) ->
  process_game_data_try env game_data platform w1 = (Raise e, wg, evsg) ->
  exists w3 evs3,
    process_game_data env game_data platform w1 =
      (Ok tt, w1, [EvLog ERROR "Game processing error: " [AExn e]]) /\
    for_each l2 (fun game => process_game_data env game platform) w1 = (Ok tt, w3, evs3) /\
    for_each (l1 ++ game_data :: l2) (fun game => process_game_data env game platform) w =
      (Ok tt, w3, evs1 ++ EvLog ERROR "Game processing error: " [AExn e] :: evs3) /\
    tracked_games w1 ⊆ tracked_games w3.
Proof.
  intros Hl1 Htry.
  destruct (process_game_data_try_raises env _ _ _ _ _ _ Htry) as [-> ->].
  pose proof (try_except_logs _ "Game processing error: " _ _ _ _ Htry) as Hg.
  fold (process_game_data env game_data platform) in Hg. simpl in Hg.
  destruct (for_each_process_run env platform l2 w1) as (w3 & evs3 & Hl2 & Hsub & _).
  exists w3, evs3. repeat split; [done..| |done].
  rewrite for_each_app. simpl. unfold bind. by rewrite Hl1, Hg, Hl2.
Qed.

Lemma record_failure_is_isolated_witness :
  let env := env_with JNull true in
  let process := fun game => process_game_data env game "epic_games" in
  let run1 := for_each [record "A1" [JDict []]] process fresh_world in
  exists w3 evs3,
    process_game_data env (JStr "oops") "epic_games" run1.1.2 =
      (Ok tt, run1.1.2, [EvLog ERROR "Game processing error: " [AExn AttributeError]]) /\
    for_each [record "A2" [JDict []]] process run1.1.2 = (Ok tt, w3, evs3) /\
    for_each ([record "A1" [JDict []]] ++ JStr "oops" :: [record "A2" [JDict []]])
      process fresh_world =
      (Ok tt, w3, run1.2 ++ EvLog ERROR "Game processing error: " [AExn AttributeError] :: evs3) /\
    tracked_games run1.1.2 ⊆ tracked_games w3.
Proof.
  intros env process run1.
  apply (record_failure_is_isolated env "epic_games" [record "A1" [JDict []]]
           (JStr "oops") [record "A2" [JDict []]] fresh_world run1.1.2 run1.2
           AttributeError run1.1.2 []).
  - vm_compute. reflexivity.
  - vm_compute. reflexivity.
Defined.

(** ** Deduplication *)

(** A later record with a tracked key changes nothing and sends
    nothing, whatever the environment and the platform. *)
Lemma tracked_key_is_not_reconsidered env game_data platform w k :
  game_key game_data = Ok k ->
  is_Some (tracked_games w !! k) ->
  exists evs,
    process_game_data env game_data platform w = (Ok tt, w, evs) /\
    notifications evs = 0.
Proof.
  intros Hkey Hin. destruct (free game_data) eqn:Hfree.
  - exists []. by rewrite (process_game_data_seen env _ _ _ k).
  - by apply process_game_data_not_free.
Qed.

(** Usable images let the loop return. *)
Lemma images_usable_loop images embed :
  images_usable images = true ->
  exists embed', thumbnail_loop images embed = Ok embed'.
Proof.
  induction images as [|image images IH]; simpl; [eauto|].
  destruct (Py.get image "type" JNull) as [ty|]; simpl; [|done].
  destruct (Py.eq_str ty "Thumbnail"); [|done].
  destruct (Py.getitem image "url") as [url|]; simpl; [eauto|done].
Qed.

(** With a channel at hand, a known platform and images that are in
    order, the alert reaches [channel.send]. *)
Lemma send_game_alert_reaches_send env game_data platform w :
  channel_ready env ->
  is_Some (platforms_assoc platform platforms) ->
  images_ok game_data = true ->
  exists w' evs,
    send_game_alert env game_data platform w = (Ok tt, w', evs) /\
    notifications evs = 1.
Proof.
  intros (cid & Hid & Hch) [info Hinfo] Himg.
  unfold images_ok in Himg.
  destruct game_data as [| | | | |d]; simpl in Himg; try discriminate Himg.
  unfold send_game_alert, send_game_alert_try, send, platforms_getitem. unfold_monad.
  rewrite Hid, Hch, Hinfo. simpl.
  destruct (Py.assoc "keyImages" d) as [v|]; simpl in *.
  - destruct (Py.truthy v); simpl.
    + destruct (Py.iter v) as [images|]; simpl; [|discriminate Himg].
      match goal with
      | |- context [thumbnail_loop images ?e0] =>
          destruct (images_usable_loop images e0 Himg) as [e' ->]
      end.
      simpl. destruct (channel_send env _ _); simpl; eauto.
    + destruct (channel_send env _ _); simpl; eauto.
  - destruct (channel_send env _ _); simpl; eauto.
Qed.

(** Two cycles that fetch the same single free item. *)
Lemma same_item_in_two_cycles env w game_data k :
  free game_data = true ->
  game_key game_data = Ok k ->
  tracked_games w !! k = None ->
  http_get env epic_url (n_get w) = Resp 200 (Some (catalog (JList [game_data]))) ->
  http_get env epic_url (S (S (n_get w))) = Resp 200 (Some (catalog (JList [game_data]))) ->
  exists w1 evs1 w2 evs2,
    monitor_games env w = (Ok tt, w1, evs1) /\
    monitor_games env w1 = (Ok tt, w2, evs2) /\
    notifications evs1 <= 1 /\
    (channel_ready env -> images_ok game_data = true -> notifications evs1 = 1) /\
    notifications evs2 = 0 /\
    tracked_games w1 = <[k := clock w]> (tracked_games w) /\
    tracked_games w2 = tracked_games w1.
Proof.
  intros Hfree Hkey Hnew Hget1 Hget2.
  (* first cycle *)
  destruct (process_game_data_new env game_data "epic_games" (after_get w) k Hfree Hkey)
    as (wa & evsa & t & Halert & Hproc & Hst); [done|].
  assert (check_epic_games env w =
    (Ok tt, wa, EvGet epic_url ::
       (evsa ++ [EvLog INFO "🎯 New free game detected: " [AVal t]]) ++ [])) as Hepic1.
  { apply (check_epic_games_items env w (catalog (JList [game_data]))
             (JList [game_data]) [game_data]); [exact Hget1|reflexivity|reflexivity|].
    cbn [for_each]. unfold bind. by rewrite Hproc. }
  destruct (monitor_games_run env _ _ _ Hepic1) as (evs2 & _ & Hrun1 & Hn2 & _).
  destruct (send_game_alert_no_request env _ _ _ _ _ _ Halert) as [Hnget _].
  destruct (send_game_alert_run env game_data "epic_games"
    (set_tracked_games (insert k (clock (after_get w))) (after_now (after_get w))))
    as (wa' & evsa' & Halert' & _ & Hle).
  rewrite Halert in Halert'. injection Halert' as <- <-.
  (* second cycle *)
  set (w1 := after_get wa) in *.
  assert (is_Some (tracked_games (after_get w1) !! k)) as Hin.
  { simpl. rewrite Hst. rewrite lookup_insert_eq. eauto. }
  assert (check_epic_games env w1 = (Ok tt, after_get w1, [EvGet epic_url])) as Hepic2.
  { apply (check_epic_games_items env w1 (catalog (JList [game_data]))
             (JList [game_data]) [game_data]); [|reflexivity|reflexivity|].
    - simpl. rewrite Hnget. simpl. exact Hget2.
    - cbn [for_each]. unfold bind.
      by rewrite (process_game_data_seen env game_data "epic_games" (after_get w1) k). }
  destruct (monitor_games_run env _ _ _ Hepic2) as (evs3 & _ & Hrun2 & Hn3 & _).
  do 4 eexists. split; [exact Hrun1|]. split; [exact Hrun2|].
  rewrite !notifications_app. simpl. rewrite !notifications_app. simpl.
  split; [lia|]. split; [|split; [lia|by split]].
  intros Hready Himg.
  destruct (send_game_alert_reaches_send env game_data "epic_games"
    (set_tracked_games (insert k (clock (after_get w))) (after_now (after_get w)))
    Hready) as (wb & evsb & Hb & Hnb); [by eexists|done|].
  rewrite Halert in Hb. injection Hb as <- <-. lia.
Qed.

(** C4, as stated, fails: a free item whose images are a text, fetched
    in two consecutive cycles with a working channel, gets no
    notification at all, not one; the store has its one entry after
    each cycle. *)
Lemma text_images_in_two_cycles_counterexample :
  let env := env_with (catalog (JList [record_with_text_images])) true in
  exists w1 evs1 w2 evs2,
    free record_with_text_images = true /\
    monitor_games env fresh_world = (Ok tt, w1, evs1) /\
    monitor_games env w1 = (Ok tt, w2, evs2) /\
    notifications (evs1 ++ evs2) = 0 /\
    size (tracked_games w1) = 1 /\
    size (tracked_games w2) = 1 /\
    notifications (evs1 ++ evs2) <> 1.
Proof.
  intros env. do 4 eexists.
  split; [reflexivity|].
  split; [vm_compute; reflexivity|].
  split; [vm_compute; reflexivity|].
  split; [vm_compute; reflexivity|].
  split; [vm_compute; reflexivity|].
  split; [vm_compute; reflexivity|].
  vm_compute. discriminate.
Qed.

(** C4, amended.  Deduplication is idempotent.  For every key, the
    first free record with that key is taken as new: its key enters the
    store and the alert is raised; every later record with that key, in
    whatever later state of the store, is taken as known: nothing
    changes and nothing is sent.  So when two consecutive cycles fetch
    the same free item, whose key is not in the store, at most one
    notification is sent in all, none of it in the second cycle, and
    the store has one entry more after each of the two cycles (one
    entry, from an empty store).  The notification is exactly one when
    the alert can be delivered: the configuration is valid and the
    images of the item are in order. *)
Theorem dedup_is_idempotent env :
  (forall game_data platform w k,
     free game_data = true ->
     game_key game_data = Ok k ->
     tracked_games w !! k = None ->
     exists w1 evs1,
       process_game_data env game_data platform w = (Ok tt, w1, evs1) /\
       tracked_games w1 = <[k := clock w]> (tracked_games w) /\
       forall env' game_data' platform' w2,
         game_key game_data' = Ok k ->
         tracked_games w1 ⊆ tracked_games w2 ->
         exists evs2,
           process_game_data env' game_data' platform' w2 = (Ok tt, w2, evs2) /\
           notifications evs2 = 0) /\
  (forall w game_data k,
     free game_data = true ->
     game_key game_data = Ok k ->
     tracked_games w !! k = None ->
     http_get env epic_url (n_get w) =
       Resp 200 (Some (catalog (JList [game_data]))) ->
     http_get env epic_url (S (S (n_get w))) =
       Resp 200 (Some (catalog (JList [game_data]))) ->
     exists w1 evs1 w2 evs2,
       monitor_games env w = (Ok tt, w1, evs1) /\
       monitor_games env w1 = (Ok tt, w2, evs2) /\
       notifications (evs1 ++ evs2) <= 1 /\
       notifications evs2 = 0 /\
       (channel_ready env -> images_ok game_data = true ->
        notifications (evs1 ++ evs2) = 1) /\
       size (tracked_games w1) = S (size (tracked_games w)) /\
       size (tracked_games w2) = S (size (tracked_games w))).
Proof.
  split.
  - intros game_data platform w k Hfree Hkey Hnew.
    destruct (process_game_data_new env _ platform _ _ Hfree Hkey Hnew)
      as (w1 & evs & t & _ & Hrun & Hst).
    do 2 eexists. split; [exact Hrun|]. split; [done|].
    intros env' game_data' platform' w2 Hkey' Hsub.
    apply (tracked_key_is_not_reconsidered env' _ _ _ k Hkey').
    exists (clock w). eapply lookup_weaken; [|exact Hsub].
    rewrite Hst. apply lookup_insert_eq.
  - intros w game_data k Hfree Hkey Hnew Hget1 Hget2.
    destruct (same_item_in_two_cycles env w game_data k Hfree Hkey Hnew Hget1 Hget2)
      as (w1 & evs1 & w2 & evs2 & Hrun1 & Hrun2 & Hle & Hone & Hnone & Hst & Hsame).
    exists w1, evs1, w2, evs2. rewrite notifications_app, Hnone, Hsame, Hst.
    rewrite map_size_insert_None by done.
    split_and!; try done; [lia|].
    intros Hready Himg. rewrite Hone by done. lia.
Qed.

Lemma dedup_is_idempotent_witness :
  let env := env_with (catalog (JList [record "A1" [JDict []]])) true in
  exists w1 evs1 w2 evs2,
    monitor_games env fresh_world = (Ok tt, w1, evs1) /\
    monitor_games env w1 = (Ok tt, w2, evs2) /\
    notifications (evs1 ++ evs2) = 1 /\
    notifications evs2 = 0 /\
    size (tracked_games w1) = 1 /\
    size (tracked_games w2) = 1.
Proof.
  intros env.
  destruct (proj2 (dedup_is_idempotent env) fresh_world (record "A1" [JDict []]) (KStr "A1"))
    as (w1 & evs1 & w2 & evs2 & Hrun1 & Hrun2 & _ & Hnone & Hone & Hsize1 & Hsize2);
    [reflexivity..|].
  exists w1, evs1, w2, evs2.
  split; [exact Hrun1|]. split; [exact Hrun2|].
  split; [|split; [exact Hnone|split; [exact Hsize1|exact Hsize2]]].
  apply Hone; [|reflexivity].
  exists 42%Z. split; reflexivity.
Defined.

(** C5.  A failed delivery is absorbed.  When a free record with a new
    key is processed and its alert delivers nothing (no channel, or an
    exception on the way to or in [channel.send]), the processing still
    returns, the failure is logged, and the key stays in the store; a
    later record with that key is not notified again. *)
Theorem delivery_failure_is_absorbed env game_data platform w k r w1 evs1 :
  free game_data = true ->
  game_key game_data = Ok k ->
  tracked_games w !! k = None ->
  process_game_data env game_data platform w = (r, w1, evs1) ->
  delivered evs1 = 0 ->
  r = Ok tt /\
  error_logged evs1 = true /\
  tracked_games w1 !! k = Some (clock w) /\
  forall env' game_data' platform' w2,
    game_key game_data' = Ok k ->
    tracked_games w1 ⊆ tracked_games w2 ->
    exists evs2,
      process_game_data env' game_data' platform' w2 = (Ok tt, w2, evs2) /\
      notifications evs2 = 0.
Proof.
  intros Hfree Hkey Hnew Hrun Hfail.
  destruct (process_game_data_new env _ platform _ _ Hfree Hkey Hnew)
    as (w' & evs & t & Halert & Hrun' & Hst).
  rewrite Hrun in Hrun'. simplify_eq.
  rewrite delivered_app in Hfail.
  assert (error_logged evs = true) as Hlog.
  { eapply send_game_alert_failure_logged; [exact Halert|lia]. }
  assert (tracked_games w' !! k = Some (clock w)) as Hin.
  { rewrite Hst. apply lookup_insert_eq. }
  repeat split; [|done|].
  - clear -Hlog. induction evs as [|[| |[]|] evs IH]; simpl in *; auto; done.
  - intros env' game_data' platform' w2 Hkey' Hsub.
    apply (tracked_key_is_not_reconsidered env' _ _ _ k Hkey').
    exists (clock w). by eapply lookup_weaken.
Qed.

Lemma delivery_failure_is_absorbed_witness :
  let env := env_with JNull false in
  let run := process_game_data env (record "A1" [JDict []]) "epic_games" fresh_world in
  run.1.1 = Ok tt /\
  error_logged run.2 = true /\
  tracked_games run.1.2 !! KStr "A1" = Some (clock fresh_world) /\
  forall env' game_data' platform' w2,
    game_key game_data' = Ok (KStr "A1") ->
    tracked_games run.1.2 ⊆ tracked_games w2 ->
    exists evs2,
      process_game_data env' game_data' platform' w2 = (Ok tt, w2, evs2) /\
      notifications evs2 = 0.
Proof.
  intros env run.
  apply (delivery_failure_is_absorbed env (record "A1" [JDict []]) "epic_games"
           fresh_world (KStr "A1") run.1.1 run.1.2 run.2).
  - reflexivity.
  - reflexivity.
  - reflexivity.
  - vm_compute. reflexivity.
  - vm_compute. reflexivity.
Defined.

(** ** The key of the store *)

(** C1, as stated, fails: the same free record processed for
    ['epic_games'] and then for ['steam'] leaves one entry in the store
    and one notification, not two of each. *)
Lemma same_id_on_two_platforms_counterexample :
  let env := env_with JNull true in
  exists w1 evs1 w2 evs2,
    process_game_data env (record "A1" [JDict []]) "epic_games" fresh_world
      = (Ok tt, w1, evs1) /\
    process_game_data env (record "A1" [JDict []]) "steam" w1 = (Ok tt, w2, evs2) /\
    size (tracked_games w2) = 1 /\
    notifications (evs1 ++ evs2) = 1 /\
    ~ (size (tracked_games w2) = 2 /\ notifications (evs1 ++ evs2) = 2).
Proof.
  intros env. do 4 eexists.
  split; [vm_compute; reflexivity|].
  split; [vm_compute; reflexivity|].
  split; [vm_compute; reflexivity|].
  split; [vm_compute; reflexivity|].
  vm_compute. intros [H _]. discriminate H.
Qed.

(** C1, amended.  The store is keyed by the id alone.  Two free records
    with the same id, processed one after the other for whatever
    platforms, leave one new entry in the store, under that id; the
    first raises the alert, with at most one notification, and the
    second is taken as known and does nothing. *)
Theorem store_is_keyed_by_id env game_data1 game_data2 platform1 platform2 w k :
  free game_data1 = true ->
  free game_data2 = true ->
  game_key game_data1 = Ok k ->
  game_key game_data2 = Ok k ->
  tracked_games w !! k = None ->
  exists w1 evs1,
    process_game_data env game_data1 platform1 w = (Ok tt, w1, evs1) /\
    process_game_data env game_data2 platform2 w1 = (Ok tt, w1, []) /\
    tracked_games w1 = <[k := clock w]> (tracked_games w) /\
    size (tracked_games w1) = S (size (tracked_games w)) /\
    notifications evs1 <= 1.
Proof.
  intros Hfree1 Hfree2 Hkey1 Hkey2 Hnew.
  destruct (process_game_data_new env _ platform1 _ _ Hfree1 Hkey1 Hnew)
    as (w1 & evs & t & Halert & Hrun & Hst).
  destruct (send_game_alert_run env game_data1 platform1
    (set_tracked_games (insert k (clock w)) (after_now w)))
    as (w1' & evs' & Halert' & _ & Hle).
  rewrite Halert in Halert'. simplify_eq.
  do 2 eexists. split; [exact Hrun|].
  split.
  { apply (process_game_data_seen env _ _ _ k Hfree2 Hkey2).
    rewrite Hst, lookup_insert_eq. eauto. }
  split; [done|]. split.
  - rewrite Hst. by apply map_size_insert_None.
  - rewrite notifications_app. simpl. lia.
Qed.

Lemma store_is_keyed_by_id_witness :
  let env := env_with JNull true in
  exists w1 evs1,
    process_game_data env (record "A1" [JDict []]) "epic_games" fresh_world
      = (Ok tt, w1, evs1) /\
    process_game_data env (record "A1" [JDict []]) "steam" w1 = (Ok tt, w1, []) /\
    tracked_games w1 = <[KStr "A1" := clock fresh_world]> (tracked_games fresh_world) /\
    size (tracked_games w1) = S (size (tracked_games fresh_world)) /\
    notifications evs1 <= 1.
Proof.
  intros env.
  apply (store_is_keyed_by_id env (record "A1" [JDict []]) (record "A1" [JDict []])
           "epic_games" "steam" fresh_world (KStr "A1")); reflexivity.
Defined.

(** ** Records without an id *)

(** For a record without an id the id is read as [None], and the block
    of [process_game_data] returns without raising.  The record is
    then handled as any other, under the key [None]: when it is not
    free, or when [None] is tracked, the store is left as it was and
    nothing is sent; when it is free and [None] is not tracked, [None]
    enters the store, and the alert is raised. *)
Lemma record_without_id_is_keyed_by_none env d platform w :
  Py.assoc "id" d = None ->
  game_key (JDict d) = Ok KNone /\
  exists w1 evs,
    process_game_data_try env (JDict d) platform w = (Ok tt, w1, evs) /\
    process_game_data env (JDict d) platform w = (Ok tt, w1, evs) /\
    (free (JDict d) = false -> w1 = w /\ notifications evs = 0) /\
    (is_Some (tracked_games w !! KNone) -> w1 = w /\ notifications evs = 0) /\
    (free (JDict d) = true -> tracked_games w !! KNone = None ->
     tracked_games w1 = <[KNone := clock w]> (tracked_games w) /\
     notifications evs <= 1 /\
     (channel_ready env ->
      is_Some (platforms_assoc platform platforms) ->
      Py.assoc "keyImages" d = None ->
      notifications evs = 1)).
Proof.
  intros Hid.
  assert (game_key (JDict d) = Ok KNone) as Hkey.
  { unfold game_key. simpl. by rewrite Hid. }
  split; [done|].
  assert (exists w1 evs,
    process_game_data_try env (JDict d) platform w = (Ok tt, w1, evs)) as (w1 & evs & Htry).
  { destruct (process_game_data_try env (JDict d) platform w) as [[[[]|e] w1] evs] eqn:Htry;
      [eauto|].
    exfalso. revert Htry.
    unfold process_game_data_try. unfold_monad. simpl. rewrite Hid.
    rewrite is_game_free_run.
    destruct (free (JDict d)); destruct (promotional_offers (JDict d)); simpl;
      try case_bool_decide; try discriminate.
    all: match goal with
         | |- context [send_game_alert ?en ?g ?p ?w0] =>
             destruct (send_game_alert_run en g p w0) as (w2 & evs2 & -> & _)
         end; discriminate. }
  pose proof (try_except_returns _
    (fun e => log ERROR "Game processing error: " [AExn e]) _ _ _ _ Htry) as Hrun.
  fold (process_game_data env (JDict d) platform) in Hrun.
  exists w1, evs. split; [done|]. split; [done|].
  split; [|split].
  - intros Hfree.
    destruct (process_game_data_not_free env _ platform w Hfree) as (evs' & Hrun' & Hn).
    rewrite Hrun in Hrun'. by simplify_eq.
  - intros Hin.
    destruct (tracked_key_is_not_reconsidered env _ platform w KNone Hkey Hin)
      as (evs' & Hrun' & Hn).
    rewrite Hrun in Hrun'. by simplify_eq.
  - intros Hfree Hnew.
    destruct (process_game_data_new env _ platform _ _ Hfree Hkey Hnew)
      as (w' & evs' & t & Halert & Hrun' & Hst).
    rewrite Hrun in Hrun'. simplify_eq.
    rewrite notifications_app. simpl.
    destruct (send_game_alert_run env (JDict d) platform
      (set_tracked_games (insert KNone (clock w)) (after_now w)))
      as (wa & evsa & Halert' & _ & Hle).
    rewrite Halert in Halert'. simplify_eq.
    repeat split; [done|lia|].
    intros Hready Hplatform Himg.
    destruct (send_game_alert_sends env d platform
      (set_tracked_games (insert KNone (clock w)) (after_now w))
      Hready Hplatform Himg) as (wb & evsb & Hb & _ & Hnb).
    rewrite Halert in Hb. simplify_eq. lia.
Qed.

(** C2.  The code does not do what the claim says.  A free record
    without an id, fetched into an empty store, is processed without
    any error raised or logged: it gets a store entry, under the key
    [None], and its notification is sent.  A second free record
    without an id, another game, is then taken as known: nothing is
    tracked and nothing is sent for it. *)
Theorem record_without_id_is_tracked_and_alerted :
  let env := env_with JNull true in
  exists w1 evs1,
    process_game_data_try env record_without_id "epic_games" fresh_world
      = (Ok tt, w1, evs1) /\
    process_game_data env record_without_id "epic_games" fresh_world
      = (Ok tt, w1, evs1) /\
    error_logged evs1 = false /\
    tracked_games w1 = {[KNone := 0%Z]} /\
    notifications evs1 = 1 /\
    process_game_data env
      (JDict [("title", JStr "Another Game");
              ("promotions", JDict [("promotionalOffers", JList [JDict []])])])
      "epic_games" w1 = (Ok tt, w1, []).
Proof.
  intros env. do 2 eexists.
  split; [vm_compute; reflexivity|].
  split; [vm_compute; reflexivity|].
  split; [vm_compute; reflexivity|].
  split; [vm_compute; reflexivity|].
  split; [vm_compute; reflexivity|].
  vm_compute. reflexivity.
Qed.

(** ** The classifier *)

(** The answer of the classifier, in the words of the specification. *)
Lemma free_characterised game_data :
  free game_data = has_offer_entry game_data || offers_true_not_list game_data.
Proof.
  unfold offers_true_not_list, free, promotional_offers, has_offer_entry.
  destruct game_data as [| | | | |d]; simpl; try done.
  destruct (Py.assoc "promotions" d) as [[| | | | |p]|]; simpl; try done.
  destruct (Py.assoc "promotionalOffers" p) as [[| | | |[|o l]|]|]; simpl; try done.
Qed.

(** The classifier raises inside, and logs, exactly on a record or on
    promotions that are not an object. *)
Lemma promotional_offers_unreadable game_data :
  match promotional_offers game_data with
  | Ok _ => promotions_unreadable game_data = false
  | Raise e => promotions_unreadable game_data = true /\ e = AttributeError
  end.
Proof.
  unfold promotional_offers, promotions_unreadable.
  destruct game_data as [| | | | |d]; simpl; try done.
  destruct (Py.assoc "promotions" d) as [[| | | | |p]|]; simpl; done.
Qed.

(** C3, as stated, fails: a record whose offers are a text, not a list
    of entries, is classified as free, though its promotions hold no
    offer entry. *)
Lemma text_offers_counterexample :
  is_game_free record_with_text_offers fresh_world = (Ok true, fresh_world, []) /\
  has_offer_entry record_with_text_offers = false.
Proof. split; reflexivity. Qed.

(** C3, amended.  The classifier is total: on every record it returns
    a boolean and never raises.  It leaves the state as it was, and its
    only effect is one "Free check error" line, logged exactly when the
    record, or its promotions where it has any, is not an object.  It
    answers true exactly when the promotions hold at least one offer
    entry, or the offers are not a list and yet count as true (a
    non-empty text, a number other than zero, [true], a non-empty
    object).  So it answers false when the record or its promotions is
    not an object, when the promotions or the offers are absent, when
    the list of offers is empty, and when the offers are [null],
    [false], zero, the empty text or the empty object. *)
Theorem is_game_free_is_total_and_fail_closed game_data w :
  exists b,
    is_game_free game_data w =
      (Ok b, w,
       if promotions_unreadable game_data
       then [EvLog ERROR "Free check error: " [AExn AttributeError]]
       else []) /\
    (b = true <->
     has_offer_entry game_data = true \/ offers_true_not_list game_data = true).
Proof.
  exists (free game_data). split.
  - rewrite is_game_free_run.
    pose proof (promotional_offers_unreadable game_data) as Hlog.
    destruct (promotional_offers game_data) as [offers|e].
    + by rewrite Hlog.
    + destruct Hlog as [-> ->]. done.
  - rewrite free_characterised. apply orb_true_iff.
Qed.

(** ** Scenario A *)

(** C8, as stated, fails: with the two records spelled with the key
    [offers], nothing is free; no notification is sent and the store
    stays empty. *)
Lemma spelled_scenario_counterexample :
  let env := env_with (catalog (JList [spelled_record "A1" [JDict []];
                                       spelled_record "A2" []])) true in
  exists w1 evs1,
    check_epic_games env fresh_world = (Ok tt, w1, evs1) /\
    notifications evs1 = 0 /\
    size (tracked_games w1) = 0 /\
    ~ (notifications evs1 = 1 /\ size (tracked_games w1) = 1).
Proof.
  intros env. do 2 eexists.
  split; [vm_compute; reflexivity|].
  split; [vm_compute; reflexivity|].
  split; [vm_compute; reflexivity|].
  vm_compute. intros [H _]. discriminate H.
Qed.

(** C8, amended.  When the Epic catalog holds exactly the two records
    [{id:"A1", promotions:{promotionalOffers:[{}]}}] and
    [{id:"A2", promotions:{promotionalOffers:[]}}] and the store is
    empty, the configuration being valid, the check sends exactly one
    notification, while it processes "A1", and the store ends with the
    one entry "A1". *)
Theorem scenario_two_records env w :
  channel_ready env ->
  tracked_games w = ∅ ->
  http_get env epic_url (n_get w) =
    Resp 200 (Some (catalog (JList [record "A1" [JDict []]; record "A2" []]))) ->
  exists w1 evs1,
    process_game_data env (record "A1" [JDict []]) "epic_games" (after_get w)
      = (Ok tt, w1, evs1) /\
    process_game_data env (record "A2" []) "epic_games" w1 = (Ok tt, w1, []) /\
    check_epic_games env w = (Ok tt, w1, EvGet epic_url :: evs1) /\
    notifications evs1 = 1 /\
    tracked_games w1 = {[KStr "A1" := clock w]} /\
    size (tracked_games w1) = 1.
Proof.
  intros Hready Hempty Hget.
  set (g1 := record "A1" [JDict []]). set (g2 := record "A2" []).
  destruct (process_game_data_new env g1 "epic_games" (after_get w) (KStr "A1"))
    as (w1 & evs & t & Halert & Hrun1 & Hst); [reflexivity..| |].
  { simpl. by rewrite Hempty. }
  destruct (send_game_alert_sends env
    [("id", JStr "A1"); ("promotions", JDict [("promotionalOffers", JList [JDict []])])]
    "epic_games"
    (set_tracked_games (insert (KStr "A1") (clock (after_get w))) (after_now (after_get w)))
    Hready) as (wb & evsb & Hb & _ & Hnb); [by eexists|reflexivity|].
  fold (record "A1" [JDict []]) in Hb. fold g1 in Hb.
  rewrite Halert in Hb. simplify_eq.
  assert (process_game_data env g2 "epic_games" wb = (Ok tt, wb, [])) as Hrun2.
  { destruct (process_game_data_not_free env g2 "epic_games" wb) as (evs2 & Hrun2 & _);
      [reflexivity|].
    rewrite Hrun2. revert Hrun2.
    unfold process_game_data, process_game_data_try. unfold_monad. simpl.
    intros; by simplify_eq. }
  do 2 eexists. split; [exact Hrun1|]. split; [exact Hrun2|].
  split.
  { apply (check_epic_games_items env w (catalog (JList [g1; g2])) (JList [g1; g2]) [g1; g2]);
      [exact Hget|reflexivity|reflexivity|].
    cbn [for_each]. unfold bind. rewrite Hrun1, Hrun2. simpl. by rewrite !app_nil_r. }
  rewrite notifications_app. simpl.
  split; [lia|].
  rewrite Hst. simpl. rewrite Hempty, insert_empty. split; [done|].
  apply map_size_singleton.
Qed.

Lemma scenario_two_records_witness :
  let env := env_with (catalog (JList [record "A1" [JDict []]; record "A2" []])) true in
  exists w1 evs1,
    process_game_data env (record "A1" [JDict []]) "epic_games" (after_get fresh_world)
      = (Ok tt, w1, evs1) /\
    process_game_data env (record "A2" []) "epic_games" w1 = (Ok tt, w1, []) /\
    check_epic_games env fresh_world = (Ok tt, w1, EvGet epic_url :: evs1) /\
    notifications evs1 = 1 /\
    tracked_games w1 = {[KStr "A1" := clock fresh_world]} /\
    size (tracked_games w1) = 1.
Proof.
  intros env. apply (scenario_two_records env fresh_world).
  - exists 42%Z. split; reflexivity.
  - reflexivity.
  - reflexivity.
Defined.

Set Warnings "-clear-no-such-hyp".

(** ** More on the store *)

Lemma detections_app evs1 evs2 :
  detections (evs1 ++ evs2) = detections evs1 + detections evs2.
Proof.
  induction evs1 as [|ev evs1 IH]; simpl; [done|].
  destruct ev as [| |[] msg args|]; simpl; try done.
  destruct (String.eqb msg _); simpl; lia.
Qed.

Lemma timeline_app evs1 evs2 :
  timeline (evs1 ++ evs2) = timeline evs1 ++ timeline evs2.
Proof.
  induction evs1 as [|ev evs1 IH]; simpl; [done|].
  destruct ev; simpl; by rewrite ?IH.
Qed.

Lemma alerts_sent_app evs1 evs2 :
  alerts_sent (evs1 ++ evs2) = alerts_sent evs1 + alerts_sent evs2.
Proof.
  induction evs1 as [|ev evs1 IH]; simpl; [done|].
  destruct ev as [| |[] msg args|]; simpl; try done.
  destruct (String.eqb msg _); simpl; lia.
Qed.

Lemma accounted_nil env : accounted env [].
Proof. unfold accounted. simpl. split_and!; [lia|done|done]. Qed.

Lemma accounted_app env evs1 evs2 :
  accounted env evs1 -> accounted env evs2 -> accounted env (evs1 ++ evs2).
Proof.
  intros (Hn1 & Ha1 & Hc1) (Hn2 & Ha2 & Hc2). unfold accounted.
  rewrite notifications_app, detections_app, alerts_sent_app, delivered_app.
  split_and!; [lia|lia|].
  intros Hno. rewrite Hc1, Hc2 by done. done.
Qed.

(** A line of log that is neither a detection nor "Alert sent". *)
Lemma accounted_error_line env msg args : accounted env [EvLog ERROR msg args].
Proof. unfold accounted. simpl. split_and!; [lia|done|done]. Qed.

(** The alert logs no detection and takes no pause; it logs "Alert
    sent" exactly when the message is delivered, and does not reach
    [channel.send] without a channel. *)
Lemma send_game_alert_quiet env game_data platform w r w' evs :
  send_game_alert env game_data platform w = (r, w', evs) ->
  detections evs = 0 /\ timeline evs = [] /\
  alerts_sent evs = delivered evs /\
  (~ channel_ready env -> notifications evs = 0).
Proof.
  unfold send_game_alert, send_game_alert_try, send, channel_ready. unfold_monad.
  destruct game_data; simpl.
  all: repeat (case_match; simplify_eq/=); intros; simplify_eq/=; split_and!; eauto.
  all: intros Hno; exfalso; apply Hno; eexists; split; [done|].
  all: by apply negb_false_iff.
Qed.

(** What one record does, case by case. *)
Lemma process_game_data_cases env game_data platform w :
  (exists evs,
     tracked_key game_data = None /\
     process_game_data env game_data platform w = (Ok tt, w, evs) /\
     notifications evs = 0 /\ detections evs = 0 /\ timeline evs = [] /\
     alerts_sent evs = 0) \/
  (exists k,
     tracked_key game_data = Some k /\
     is_Some (tracked_games w !! k) /\
     process_game_data env game_data platform w = (Ok tt, w, [])) \/
  (exists k w' evs,
     tracked_key game_data = Some k /\
     tracked_games w !! k = None /\
     process_game_data env game_data platform w = (Ok tt, w', evs) /\
     tracked_games w' = <[k := clock w]> (tracked_games w) /\
     notifications evs <= 1 /\ detections evs = 1 /\ timeline evs = [] /\
     alerts_sent evs = delivered evs /\
     (~ channel_ready env -> notifications evs = 0)).
Proof.
  unfold tracked_key.
  destruct (free game_data) eqn:Hfree.
  - destruct (game_key game_data) as [k|e] eqn:Hkey.
    + destruct (tracked_games w !! k) as [t|] eqn:Hk.
      * right; left. exists k. rewrite Hk.
        by rewrite (process_game_data_seen env _ _ _ k) by eauto.
      * right; right.
        destruct (process_game_data_new env _ platform _ _ Hfree Hkey Hk)
          as (w' & evs & t & Halert & Hrun & Hst).
        destruct (send_game_alert_run env game_data platform
          (set_tracked_games (insert k (clock w)) (after_now w)))
          as (w2 & evs2 & Hrun2 & _ & Hle).
        rewrite Halert in Hrun2. simplify_eq.
        destruct (send_game_alert_quiet _ _ _ _ _ _ _ Halert) as (Hd & Ht & Ha & Hc).
        exists k, w2. eexists. split; [done|]. split; [done|].
        split; [exact Hrun|]. split; [done|].
        rewrite notifications_app, detections_app, timeline_app, alerts_sent_app,
          delivered_app, Hd, Ht.
        simpl. split_and!; [lia|lia|done|lia|].
        intros Hno. rewrite Hc by done. done.
    + left. eexists. split; [done|].
      by rewrite (process_game_data_unhashable env _ _ _ e).
  - left.
    destruct (process_game_data_not_free env game_data platform w Hfree) as (evs & Hrun & Hn).
    exists evs. split; [done|]. split; [done|]. split; [done|].
    revert Hrun. unfold process_game_data, process_game_data_try. unfold_monad.
    destruct game_data; simpl; try (intros; by simplify_eq).
    rewrite is_game_free_run, Hfree.
    destruct (promotional_offers _); simpl; intros; by simplify_eq.
Qed.

Lemma free_keys_cons game_data items :
  free_keys (game_data :: items) =
    match tracked_key game_data with
    | Some k => k :: free_keys items
    | None => free_keys items
    end.
Proof. reflexivity. Qed.

(** What the records of one response do to the store and to the log. *)
Lemma for_each_process_account env platform items w :
  exists w' evs,
    for_each items (fun game => process_game_data env game platform) w = (Ok tt, w', evs) /\
    dom (tracked_games w') = dom (tracked_games w) ∪ list_to_set (free_keys items) /\
    size (tracked_games w') = size (tracked_games w) + detections evs /\
    accounted env evs /\
    timeline evs = [].
Proof.
  revert w. induction items as [|g items IH]; intros w.
  - exists w, []. simpl. split; [done|]. split; [set_solver|]. split; [lia|].
    split; [apply accounted_nil|done].
  - rewrite free_keys_cons. cbn [for_each]. unfold bind.
    destruct (process_game_data_cases env g platform w)
      as [(evs1 & -> & Hrun & Hn & Hd & Ht & Ha)
         |[(k & -> & Hin & Hrun)
          |(k & w1 & evs1 & -> & Hnew & Hrun & Hst & Hn & Hd & Ht & Ha & Hc)]].
    + destruct (IH w) as (w' & evs & Hrest & Hdom & Hsize & Hacc & Htl).
      exists w', (evs1 ++ evs). rewrite Hrun, Hrest.
      rewrite detections_app, timeline_app, Ht, Htl.
      split_and!; [done|done|lia| |done].
      apply accounted_app; [|done]. unfold accounted.
      pose proof (delivered_le_notifications evs1).
      split_and!; [lia|lia|done].
    + destruct (IH w) as (w' & evs & Hrest & Hdom & Hsize & Hacc & Htl).
      exists w', evs. rewrite Hrun, Hrest. simpl.
      split_and!; [done| |done..].
      rewrite Hdom. apply elem_of_dom in Hin. set_solver.
    + destruct (IH w1) as (w' & evs & Hrest & Hdom & Hsize & Hacc & Htl).
      exists w', (evs1 ++ evs). rewrite Hrun, Hrest.
      rewrite detections_app, timeline_app, Ht, Htl.
      split_and!; [done| | | |done].
      * rewrite Hdom, Hst, dom_insert_L. set_solver.
      * rewrite Hsize, Hst, map_size_insert_None by done. lia.
      * apply accounted_app; [|done]. unfold accounted. split_and!; [lia|done|done].
Qed.

Lemma free_keys_not_free items :
  Forall (fun game => free game = false) items -> free_keys items = [].
Proof.
  induction 1 as [|g items Hg _ IH]; [done|].
  rewrite free_keys_cons. unfold tracked_key. by rewrite Hg.
Qed.

(** The Epic check is its request, then the records of some list, then
    at most one error line; the list is the catalog when the fetch
    succeeds and brings no key otherwise. *)
Lemma check_epic_games_shape env w :
  exists items w' evs tail,
    for_each items (fun game => process_game_data env game "epic_games") (after_get w)
      = (Ok tt, w', evs) /\
    check_epic_games env w = (Ok tt, w', EvGet epic_url :: evs ++ tail) /\
    (tail = [] \/ exists e, tail = [EvLog ERROR "Epic Games API error: " [AExn e]]) /\
    match catalog_records (http_get env epic_url (n_get w)) with
    | Some l => items = l /\ tail = []
    | None => free_keys items = []
    end.
Proof.
  destruct (http_get env epic_url (n_get w)) as [|status body] eqn:Hget.
  2: destruct (status =? 200)%Z eqn:Hst.
  2: destruct body as [data|].
  2: destruct (elements data) as [games|e] eqn:Hel.
  2: destruct (Py.iter games) as [items|e] eqn:Hit.
  2: { apply Z.eqb_eq in Hst as ->.
       destruct (for_each_process_run env "epic_games" items (after_get w))
         as (w' & evs & Hfor & _).
       exists items, w', evs, []. split; [done|].
       rewrite app_nil_r. split; [by eapply check_epic_games_items|].
       split; [by left|]. simpl. rewrite Hel.
       destruct games; simpl in *; simplify_eq; try done;
         auto using free_keys_not_free, chars_not_free, keys_not_free. }
  all: exists [], (after_get w), []; eexists.
  all: split; [reflexivity|].
  all: unfold check_epic_games, check_epic_games_try, session_get, response_json.
  all: unfold_monad; simpl; fold epic_url; rewrite Hget; simpl.
  all: rewrite ?Hst; simpl; rewrite ?Hel; simpl; rewrite ?Hit; simpl.
  all: split; [reflexivity|].
  all: split; [eauto|].
  all: try done.
  all: destruct games; simpl in *; by simplify_eq.
Qed.

(** The Steam check is its request and at most one line of log. *)
Lemma check_steam_games_quiet env w :
  exists tail,
    check_steam_games env w = (Ok tt, after_get w, EvGet steam_url :: tail) /\
    detections tail = 0 /\ timeline tail = [] /\ accounted env tail.
Proof.
  unfold check_steam_games, check_steam_games_try, session_get, response_json.
  unfold_monad. simpl. fold steam_url.
  destruct (http_get env steam_url (n_get w)) as [|status [data|]]; simpl;
    try destruct (status =? 200)%Z; simpl; eexists; split_and!; try done.
  all: unfold accounted; simpl; split_and!; auto.
Qed.

(** One cycle: the store, the log and the timeline. *)
Lemma monitor_games_account env w :
  exists w' evs,
    monitor_games env w = (Ok tt, w', evs) /\
    monitor_games_try env w = (Ok tt, w', evs) /\
    size (tracked_games w') = size (tracked_games w) + detections evs /\
    accounted env evs /\
    timeline evs = [inl epic_url; inr 15%Z; inl steam_url].
Proof.
  destruct (check_epic_games_shape env w)
    as (items & w1 & evs1 & tail1 & Hfor & Hepic & Htail & _).
  destruct (for_each_process_account env "epic_games" items (after_get w))
    as (w1' & evs1' & Hfor' & _ & Hsize & Hacc & Htl).
  rewrite Hfor in Hfor'. injection Hfor' as <- <-.
  destruct (check_steam_games_quiet env w1) as (tail2 & Hsteam & Hd2 & Ht2 & Hacc2).
  assert (monitor_games_try env w =
    (Ok tt, after_get w1,
     (EvGet epic_url :: evs1 ++ tail1) ++ EvSleep 15 :: EvGet steam_url :: tail2)) as Htry.
  { unfold monitor_games_try. unfold_monad. by rewrite Hepic, Hsteam. }
  assert (accounted env tail1 /\ detections tail1 = 0 /\ timeline tail1 = [])
    as (Hacc1 & Hd1 & Ht1).
  { destruct Htail as [->|[e ->]]; split_and!;
      auto using accounted_nil, accounted_error_line. }
  do 2 eexists. split; [by apply try_except_returns|]. split; [exact Htry|].
  simpl in Hsize. split_and!.
  - simpl. rewrite !detections_app. simpl. rewrite ?detections_app. simpl. lia.
  - change (accounted env (([EvGet epic_url] ++ evs1 ++ tail1) ++
      [EvSleep 15; EvGet steam_url] ++ tail2)).
    repeat apply accounted_app; try done.
    all: unfold accounted; simpl; split_and!; auto.
  - simpl. rewrite !timeline_app. simpl. rewrite ?timeline_app. simpl.
    by rewrite ?Htl, ?Ht1, ?Ht2.
Qed.

Lemma scheduler_account env n w :
  exists w' evs,
    scheduler env n w = (Ok tt, w', evs) /\
    size (tracked_games w') = size (tracked_games w) + detections evs /\
    accounted env evs /\
    timeline evs = schedule n.
Proof.
  revert w. induction n as [|n IH]; intros w; simpl.
  - exists w, []. simpl. split_and!; [done|lia|apply accounted_nil|done].
  - destruct (monitor_games_account env w) as (w1 & evs1 & Hrun & _ & Hsize & Hacc & Htl).
    destruct (IH w1) as (w2 & evs2 & Hrest & Hsize2 & Hacc2 & Htl2).
    exists w2. eexists. unfold_monad. rewrite Hrun, Hrest.
    split; [done|].
    rewrite detections_app, timeline_app. simpl.
    rewrite Htl, Htl2. split_and!; [lia| |done].
    by apply accounted_app.
Qed.

(** X1.  The store only grows.  Over any number of cycles, whatever the
    answers of the environment, every entry of the store stays, with
    the date it was given. *)
Theorem store_only_grows env n w :
  exists w' evs,
    scheduler env n w = (Ok tt, w', evs) /\
    forall k t, tracked_games w !! k = Some t -> tracked_games w' !! k = Some t.
Proof.
  destruct (scheduler_run env n w) as (w' & evs & Hrun & Hsub & _).
  exists w', evs. split; [done|].
  intros k t Hk. by eapply lookup_weaken.
Qed.

(** X2.  Notifications and new entries.  Over any number of cycles, the
    store grows by exactly the number of "New free game detected" lines
    logged, and the calls of [channel.send] are at most as many as the
    entries the store gained. *)
Theorem notifications_bounded_by_new_entries env n w :
  exists w' evs,
    scheduler env n w = (Ok tt, w', evs) /\
    size (tracked_games w') = size (tracked_games w) + detections evs /\
    notifications evs <= size (tracked_games w') - size (tracked_games w).
Proof.
  destruct (scheduler_account env n w) as (w' & evs & Hrun & Hsize & (Hle & _) & _).
  exists w', evs. split_and!; [done|done|lia].
Qed.

(** X3.  The pause.  Every cycle issues the Epic request, then calls
    [asyncio.sleep(15)], then issues the Steam request, whatever the
    outcome of the Epic check; over any number of cycles there is no
    other request and no other call of [asyncio.sleep]. *)
Theorem pause_separates_requests env n w :
  exists w' evs,
    scheduler env n w = (Ok tt, w', evs) /\
    timeline evs = schedule n.
Proof.
  destruct (scheduler_account env n w) as (w' & evs & Hrun & _ & _ & Htl).
  by exists w', evs.
Qed.

(** X4.  No exception of class [Exception] reaches the outer handler
    of [monitor_games].  In a cycle that is not cancelled, every
    [Exception] raised under [check_epic_games] and
    [check_steam_games] is caught inside them, so the block of
    [monitor_games] returns, its handler is not entered, and
    [monitor_games] does what its block does. *)
Theorem no_exception_reaches_monitor_handler env w :
  exists w' evs,
    monitor_games_try env w = (Ok tt, w', evs) /\
    monitor_games env w = (Ok tt, w', evs).
Proof.
  destruct (monitor_games_account env w) as (w' & evs & Hrun & Htry & _).
  by exists w', evs.
Qed.

(** X5.  The keys after a fetch.  When the Epic catalog is a list of
    records, the keys of the store after the check are the keys it had
    plus the ids of the records that are free and whose id is hashable:
    no free record is missed, and nothing else is added. *)
Theorem tracked_keys_after_fetch env w items :
  catalog_records (http_get env epic_url (n_get w)) = Some items ->
  exists w' evs,
    check_epic_games env w = (Ok tt, w', evs) /\
    dom (tracked_games w') = dom (tracked_games w) ∪ list_to_set (free_keys items).
Proof.
  intros Hcat.
  destruct (check_epic_games_shape env w)
    as (items' & w1 & evs1 & tail1 & Hfor & Hepic & _ & Hitems).
  rewrite Hcat in Hitems. destruct Hitems as [-> ->].
  destruct (for_each_process_account env "epic_games" items (after_get w))
    as (w1' & evs1' & Hfor' & Hdom & _).
  rewrite Hfor in Hfor'. injection Hfor' as <- <-.
  do 2 eexists. split; [exact Hepic|]. exact Hdom.
Qed.

Lemma tracked_keys_after_fetch_witness :
  let items := [record "A1" [JDict []]; record "A2" []; JStr "oops";
                record "A1" [JDict []]; record "A4" [JNull]] in
  let env := env_with (catalog (JList items)) true in
  exists w' evs,
    check_epic_games env fresh_world = (Ok tt, w', evs) /\
    dom (tracked_games w') =
      dom (tracked_games fresh_world) ∪ list_to_set (free_keys items).
Proof.
  intros items env.
  apply (tracked_keys_after_fetch env fresh_world items). reflexivity.
Defined.

(** ** More on the alerts *)

(** X6.  The line "Alert sent".  Over any number of cycles, "Alert sent"
    is logged once for each message that [channel.send] delivered, and
    never for a message that failed or was not attempted. *)
Theorem alert_sent_line_iff_delivered env n w :
  exists w' evs,
    scheduler env n w = (Ok tt, w', evs) /\
    alerts_sent evs = delivered evs.
Proof.
  destruct (scheduler_account env n w) as (w' & evs & Hrun & _ & (_ & Ha & _) & _).
  by exists w', evs.
Qed.

(** X7.  Without a channel.  When the channel id is not configured, or
    the client does not know the channel, no cycle ever calls
    [channel.send]; the free games found are tracked and logged as
    detected all the same, so they will not be announced later. *)
Theorem no_channel_no_notification env n w :
  ~ channel_ready env ->
  exists w' evs,
    scheduler env n w = (Ok tt, w', evs) /\
    notifications evs = 0 /\
    size (tracked_games w') = size (tracked_games w) + detections evs.
Proof.
  intros Hno.
  destruct (scheduler_account env n w) as (w' & evs & Hrun & Hsize & (_ & _ & Hc) & _).
  exists w', evs. split_and!; auto.
Qed.

Lemma no_channel_no_notification_witness :
  let env := env_without_channel (catalog (JList [record "A1" [JDict []]])) in
  exists w' evs,
    scheduler env 2 fresh_world = (Ok tt, w', evs) /\
    notifications evs = 0 /\
    size (tracked_games w') = size (tracked_games fresh_world) + detections evs.
Proof.
  intros env. apply (no_channel_no_notification env 2 fresh_world).
  intros (channel_id & Hid & _). discriminate Hid.
Defined.

(** X8.  The health report agrees with the log.  After any number of
    cycles, [system_status] reports the number of entries the store had
    before them plus the number of detections logged since, with the
    time elapsed since [start_time], and leaves the store as it is. *)
Theorem status_counts_detections env n w :
  exists w1 evs w2,
    scheduler env n w = (Ok tt, w1, evs) /\
    system_status w1 =
      (Ok tt, w2,
       [EvLog INFO "✅ System Status: "
          [ANat (size (tracked_games w) + detections evs);
           ATime (clock w1 - start_time w1)]]) /\
    tracked_games w2 = tracked_games w1.
Proof.
  destruct (scheduler_account env n w) as (w1 & evs & Hrun & Hsize & _).
  exists w1, evs. eexists. split; [exact Hrun|].
  unfold system_status. unfold_monad. simpl. by rewrite Hsize.
Qed.

(** ** More on the records *)

(** X9.  An id that cannot be hashed.  A free record whose id is a list
    or an object is never tracked and never announced: in every state,
    its processing logs the [TypeError] and changes nothing, so the
    same happens at every cycle that fetches it. *)
Theorem unhashable_id_is_never_tracked env d id platform w :
  free (JDict d) = true ->
  Py.assoc "id" d = Some id ->
  py_hash id = Raise TypeError ->
  process_game_data env (JDict d) platform w =
    (Ok tt, w, [EvLog ERROR "Game processing error: " [AExn TypeError]]).
Proof.
  intros Hfree Hid Hhash.
  apply process_game_data_unhashable; [done|].
  unfold game_key. simpl. by rewrite Hid.
Qed.

Lemma unhashable_id_is_never_tracked_witness :
  process_game_data env_offline
    (JDict [("id", JList [JStr "A1"]);
            ("promotions", JDict [("promotionalOffers", JList [JDict []])])])
    "epic_games" fresh_world =
    (Ok tt, fresh_world, [EvLog ERROR "Game processing error: " [AExn TypeError]]).
Proof.
  apply (unhashable_id_is_never_tracked env_offline _ (JList [JStr "A1"]));
    reflexivity.
Defined.

(** X10.  Promotions that are not an object.  The default [{}] of
    [game_data.get('promotions', {})] only serves a record without the
    key.  A record whose promotions are present but not an object (the
    JSON [null], say) makes [is_game_free] raise inside and answer
    false with a "Free check error" line, each time it is processed; a
    record without promotions is not free either, silently. *)
Theorem promotions_not_an_object env d platform w :
  (forall v,
     Py.assoc "promotions" d = Some v ->
     (forall p, v <> JDict p) ->
     is_game_free (JDict d) w =
       (Ok false, w, [EvLog ERROR "Free check error: " [AExn AttributeError]]) /\
     process_game_data env (JDict d) platform w =
       (Ok tt, w, [EvLog ERROR "Free check error: " [AExn AttributeError]])) /\
  (Py.assoc "promotions" d = None ->
     is_game_free (JDict d) w = (Ok false, w, []) /\
     process_game_data env (JDict d) platform w = (Ok tt, w, [])).
Proof.
  split.
  - intros v Hv Hnot.
    assert (promotional_offers (JDict d) = Raise AttributeError) as Hoff.
    { unfold promotional_offers. simpl. rewrite Hv.
      destruct v; simpl; try done. by destruct (Hnot d0). }
    assert (free (JDict d) = false) as Hfree by (unfold free; by rewrite Hoff).
    split.
    + by rewrite is_game_free_run, Hfree, Hoff.
    + unfold process_game_data, process_game_data_try. unfold_monad. simpl.
      by rewrite is_game_free_run, Hfree, Hoff.
  - intros Hnone.
    assert (promotional_offers (JDict d) = Ok (JList [])) as Hoff.
    { unfold promotional_offers. simpl. by rewrite Hnone. }
    assert (free (JDict d) = false) as Hfree by (unfold free; by rewrite Hoff).
    split.
    + by rewrite is_game_free_run, Hfree, Hoff.
    + unfold process_game_data, process_game_data_try. unfold_monad. simpl.
      by rewrite is_game_free_run, Hfree, Hoff.
Qed.

Lemma promotions_not_an_object_witness :
  is_game_free (JDict [("id", JStr "A5"); ("promotions", JNull)]) fresh_world =
    (Ok false, fresh_world, [EvLog ERROR "Free check error: " [AExn AttributeError]]) /\
  process_game_data env_offline (JDict [("id", JStr "A5"); ("promotions", JNull)])
    "epic_games" fresh_world =
    (Ok tt, fresh_world, [EvLog ERROR "Free check error: " [AExn AttributeError]]).
Proof.
  apply (proj1 (promotions_not_an_object env_offline
    [("id", JStr "A5"); ("promotions", JNull)] "epic_games" fresh_world) JNull).
  - reflexivity.
  - intros p Hp. discriminate Hp.
Defined.

(** ** The message *)

(** The loop over the images touches nothing but the thumbnail. *)
Lemma thumbnail_loop_keeps images embed embed' :
  thumbnail_loop images embed = Ok embed' ->
  embed' = embed \/ exists url, embed' = set_thumbnail url embed.
Proof.
  induction images as [|image images IH]; simpl.
  - intros. left. by simplify_eq.
  - destruct (Py.get image "type" JNull) as [ty|]; simpl; [|done].
    destruct (Py.eq_str ty "Thumbnail"); [|done].
    destruct (Py.getitem image "url") as [url|]; simpl; [|done].
    intros. right. exists url. by simplify_eq.
Qed.

Lemma send_game_alert_payload env game_data platform w r w' evs e ok :
  send_game_alert env game_data platform w = (r, w', evs) ->
  In (EvSend e ok) evs ->
  exists info,
    platforms_assoc platform platforms = Some info /\
    title e = "🎮 **FREE GAME ALERT** - " +:+ platform_name info /\
    color e = platform_color info /\
    Py.get game_data "title" (JStr "Unknown Game") = Ok (description e) /\
    fields e = [ ("💰 Price", "**FREE** 🆓", true);
                 ("📅 Duration", "Limited Time Offer ⏰", true);
                 ("🔗 Platform", platform_name info, true) ] /\
    footer_tracked e = size (tracked_games w) /\
    ok = channel_send env (n_send w) e.
Proof.
  unfold send_game_alert, send_game_alert_try, send, platforms_getitem. unfold_monad.
  destruct game_data; simpl.
  all: repeat (case_match; simplify_eq/=); intros; simplify_eq/=.
  all: repeat match goal with
       | H : _ \/ _ |- _ => destruct H
       | H : False |- _ => destruct H
       end; simplify_eq.
  all: repeat match goal with
       | H : rbind ?x _ = Ok _ |- _ =>
           destruct x eqn:?; simpl in H; [|discriminate H]
       end.
  all: try match goal with
       | H : thumbnail_loop _ _ = Ok _ |- _ =>
           apply thumbnail_loop_keeps in H as [->|[? ->]]
       end.
  all: eexists; split_and!; simpl; try done.
Qed.

Lemma no_notification_no_send evs e ok :
  notifications evs = 0 -> ~ In (EvSend e ok) evs.
Proof.
  induction evs as [|ev evs IH]; simpl; [tauto|].
  destruct ev; simpl; intros Hn [Heq|Hin]; try discriminate; by apply IH.
Qed.

(** X11.  What the message says.  Every message [process_game_data] hands
    to [channel.send] is built for a platform of [self.platforms]: it
    carries the name and the colour of that platform, the title of the
    record (['Unknown Game'] only when the record has no title key),
    and in its footer the size of the store counting the game it
    announces, which entered the store just before. *)
Theorem alert_payload env game_data platform w r w' evs e ok :
  process_game_data env game_data platform w = (r, w', evs) ->
  In (EvSend e ok) evs ->
  exists info,
    platforms_assoc platform platforms = Some info /\
    title e = "🎮 **FREE GAME ALERT** - " +:+ platform_name info /\
    color e = platform_color info /\
    Py.get game_data "title" (JStr "Unknown Game") = Ok (description e) /\
    fields e = [ ("💰 Price", "**FREE** 🆓", true);
                 ("📅 Duration", "Limited Time Offer ⏰", true);
                 ("🔗 Platform", platform_name info, true) ] /\
    footer_tracked e = S (size (tracked_games w)).
Proof.
  intros Hrun Hin.
  destruct (free game_data) eqn:Hfree.
  - destruct (game_key game_data) as [k|ex] eqn:Hkey.
    + destruct (tracked_games w !! k) as [t|] eqn:Hk.
      * rewrite (process_game_data_seen env _ _ _ k) in Hrun by eauto.
        simplify_eq. destruct Hin.
      * destruct (process_game_data_new env _ platform _ _ Hfree Hkey Hk)
          as (w1 & evs1 & t & Halert & Hrun' & _).
        rewrite Hrun in Hrun'. simplify_eq.
        apply in_app_or in Hin as [Hin|[Hin|[]]]; [|discriminate Hin].
        destruct (send_game_alert_payload _ _ _ _ _ _ _ _ _ Halert Hin)
          as (info & Hinfo & Htitle & Hcolor & Hdesc & Hfields & Hfooter & _).
        exists info. split_and!; try done.
        rewrite Hfooter. simpl. by apply map_size_insert_None.
    + rewrite (process_game_data_unhashable env _ _ _ ex) in Hrun by done.
      simplify_eq. destruct Hin as [Hin|[]]. discriminate Hin.
  - destruct (process_game_data_not_free env game_data platform w Hfree)
      as (evs' & Hrun' & Hn).
    rewrite Hrun in Hrun'. simplify_eq.
    by destruct (no_notification_no_send _ e ok Hn).
Qed.

Lemma alert_payload_witness :
  let e := {| title := "🎮 **FREE GAME ALERT** - Epic Games Store";
              description := JStr "Unknown Game";
              color := 3040510;
              timestamp := 1;
              fields := [ ("💰 Price", "**FREE** 🆓", true);
                          ("📅 Duration", "Limited Time Offer ⏰", true);
                          ("🔗 Platform", "Epic Games Store", true) ];
              footer_tracked := 1;
              footer_icon_url := "https://i.imgur.com/3Z8jCzW.png";
              thumbnail := None |} in
  exists info,
    platforms_assoc "epic_games" platforms = Some info /\
    title e = "🎮 **FREE GAME ALERT** - " +:+ platform_name info /\
    color e = platform_color info /\
    Py.get (record "A1" [JDict []]) "title" (JStr "Unknown Game") = Ok (description e) /\
    fields e = [ ("💰 Price", "**FREE** 🆓", true);
                 ("📅 Duration", "Limited Time Offer ⏰", true);
                 ("🔗 Platform", platform_name info, true) ] /\
    footer_tracked e = S (size (tracked_games fresh_world)).
Proof.
  intros e.
  set (run := process_game_data (env_with JNull true) (record "A1" [JDict []])
                "epic_games" fresh_world).
  apply (alert_payload (env_with JNull true) (record "A1" [JDict []]) "epic_games"
           fresh_world run.1.1 run.1.2 run.2 e true).
  - vm_compute. reflexivity.
  - vm_compute. left. reflexivity.
Defined.

(** X12.  Which thumbnail.  The loop over the images of a record stops at
    the first image whose type is ['Thumbnail'] and takes its url,
    whatever follows it in the list; when no image has that type the
    message goes without a thumbnail as it was built. *)
Theorem thumbnail_is_first_match embed :
  (forall images,
     forallb not_thumbnail images = true ->
     thumbnail_loop images embed = Ok embed) /\
  (forall before d url after,
     forallb not_thumbnail before = true ->
     Py.assoc "type" d = Some (JStr "Thumbnail") ->
     Py.assoc "url" d = Some url ->
     thumbnail_loop (before ++ JDict d :: after) embed = Ok (set_thumbnail url embed)).
Proof.
  assert (forall images rest,
    forallb not_thumbnail images = true ->
    thumbnail_loop (images ++ rest) embed = thumbnail_loop rest embed) as Hskip.
  { induction images as [|image images IH]; intros rest Hall; [done|].
    simpl in Hall. apply andb_true_iff in Hall as [Himage Hall].
    simpl. unfold not_thumbnail in Himage.
    destruct (Py.get image "type" JNull) as [ty|]; [|done]. simpl.
    apply negb_true_iff in Himage. rewrite Himage. by apply IH. }
  split.
  - intros images Hall. rewrite <- (app_nil_r images). by rewrite Hskip.
  - intros before d url after Hall Hty Hurl. rewrite Hskip by done.
    simpl. by rewrite Hty, Hurl.
Qed.

Lemma thumbnail_is_first_match_witness :
  let embed := {| title := "🎮 **FREE GAME ALERT** - Epic Games Store";
                  description := JStr "Unknown Game";
                  color := 3040510;
                  timestamp := 1;
                  fields := [];
                  footer_tracked := 1;
                  footer_icon_url := "https://i.imgur.com/3Z8jCzW.png";
                  thumbnail := None |} in
  thumbnail_loop
    ([JDict [("type", JStr "OfferImageWide"); ("url", JStr "wide.png")]] ++
     JDict [("type", JStr "Thumbnail"); ("url", JStr "thumb.png")] ::
     [JNull; JDict [("type", JStr "Thumbnail"); ("url", JStr "other.png")]])
    embed = Ok (set_thumbnail (JStr "thumb.png") embed).
Proof.
  intros embed.
  apply (proj2 (thumbnail_is_first_match embed)
    [JDict [("type", JStr "OfferImageWide"); ("url", JStr "wide.png")]]
    [("type", JStr "Thumbnail"); ("url", JStr "thumb.png")] (JStr "thumb.png")
    [JNull; JDict [("type", JStr "Thumbnail"); ("url", JStr "other.png")]]);
    reflexivity.
Defined.

(** ** Alerts that are lost *)

Lemma error_logged_app_l evs1 evs2 :
  error_logged evs1 = true -> error_logged (evs1 ++ evs2) = true.
Proof.
  induction evs1 as [|[| |[]|] evs1 IH]; simpl; auto; done.
Qed.

(** A new free record whose alert does not reach [channel.send] is
    tracked all the same. *)
Lemma lost_alert env game_data platform w k :
  free game_data = true ->
  game_key game_data = Ok k ->
  tracked_games w !! k = None ->
  (forall w0 r w' evs,
     send_game_alert env game_data platform w0 = (r, w', evs) -> notifications evs = 0) ->
  exists w' evs,
    process_game_data env game_data platform w = (Ok tt, w', evs) /\
    notifications evs = 0 /\
    error_logged evs = true /\
    tracked_games w' !! k = Some (clock w).
Proof.
  intros Hfree Hkey Hnew Hlost.
  destruct (process_game_data_new env _ platform _ _ Hfree Hkey Hnew)
    as (w' & evs & t & Halert & Hrun & Hst).
  pose proof (Hlost _ _ _ _ Halert) as Hn.
  exists w'. eexists. split; [exact Hrun|].
  rewrite notifications_app, Hn. split; [done|]. split.
  - apply error_logged_app_l.
    eapply send_game_alert_failure_logged; [exact Halert|].
    pose proof (delivered_le_notifications evs). lia.
  - rewrite Hst. apply lookup_insert_eq.
Qed.

(** Images that are not a list make the loop raise. *)
Lemma images_not_a_list_raise v embed :
  Py.truthy v = true ->
  (forall l, v <> JList l) ->
  exists ex,
    rbind (Py.iter v) (fun images => thumbnail_loop images embed) = Raise ex.
Proof.
  intros Htruthy Hnot.
  destruct v as [|b|q|s|l|d]; simpl in *; try done; eauto.
  - destruct s as [|c s]; simpl in *; [done|]. eauto.
  - by destruct (Hnot l).
  - destruct d as [|[key val] d]; simpl in *; [done|]. eauto.
Qed.

Lemma send_game_alert_bad_images env d platform v w r w' evs :
  Py.assoc "keyImages" d = Some v ->
  Py.truthy v = true ->
  (forall l, v <> JList l) ->
  send_game_alert env (JDict d) platform w = (r, w', evs) ->
  notifications evs = 0.
Proof.
  intros Hv Htruthy Hnot.
  unfold send_game_alert, send_game_alert_try, send. unfold_monad.
  destruct (DISCORD_CHANNEL_ID env) as [cid|ex]; simpl; [|intros; by simplify_eq].
  destruct (get_channel env cid); simpl; [|intros; by simplify_eq].
  destruct (platforms_getitem platform) as [info|ex]; simpl; [|intros; by simplify_eq].
  rewrite Hv, Htruthy. simpl.
  match goal with
  | |- context [thumbnail_loop _ ?e0] =>
      destruct (images_not_a_list_raise v e0 Htruthy Hnot) as [ex ->]
  end.
  simpl. intros; by simplify_eq.
Qed.

(** X13.  Images that are not a list.  A new free record whose
    [keyImages] is there, true as a condition and not a list (a text,
    an object, a number) is tracked, but its alert is never sent: the
    loop over the images raises before [channel.send], the error is
    logged, and the record is known from then on. *)
Theorem malformed_images_lose_the_alert env d platform w k v :
  free (JDict d) = true ->
  game_key (JDict d) = Ok k ->
  tracked_games w !! k = None ->
  Py.assoc "keyImages" d = Some v ->
  Py.truthy v = true ->
  (forall l, v <> JList l) ->
  exists w' evs,
    process_game_data env (JDict d) platform w = (Ok tt, w', evs) /\
    notifications evs = 0 /\
    error_logged evs = true /\
    tracked_games w' !! k = Some (clock w) /\
    forall env' platform', process_game_data env' (JDict d) platform' w' = (Ok tt, w', []).
Proof.
  intros Hfree Hkey Hnew Hv Htruthy Hnot.
  destruct (lost_alert env (JDict d) platform w k Hfree Hkey Hnew)
    as (w' & evs & Hrun & Hn & Hlog & Hin).
  { intros w0 r w1 evs1. by apply (send_game_alert_bad_images env d platform v). }
  exists w', evs. split_and!; try done.
  intros env' platform'. apply (process_game_data_seen env' _ _ _ k); eauto.
Qed.

Lemma malformed_images_lose_the_alert_witness :
  let d := [("id", JStr "A6"); ("keyImages", JStr "cover.png");
            ("promotions", JDict [("promotionalOffers", JList [JDict []])])] in
  exists w' evs,
    process_game_data (env_with JNull true) (JDict d) "epic_games" fresh_world
      = (Ok tt, w', evs) /\
    notifications evs = 0 /\
    error_logged evs = true /\
    tracked_games w' !! KStr "A6" = Some (clock fresh_world) /\
    forall env' platform', process_game_data env' (JDict d) platform' w' = (Ok tt, w', []).
Proof.
  intros d.
  apply (malformed_images_lose_the_alert (env_with JNull true) d "epic_games"
           fresh_world (KStr "A6") (JStr "cover.png")); try reflexivity.
  intros l Hl. discriminate Hl.
Defined.

Lemma send_game_alert_unknown_platform env game_data platform w r w' evs :
  platforms_assoc platform platforms = None ->
  send_game_alert env game_data platform w = (r, w', evs) ->
  notifications evs = 0.
Proof.
  intros Hnone.
  unfold send_game_alert, send_game_alert_try, send, platforms_getitem. unfold_monad.
  rewrite Hnone.
  destruct (DISCORD_CHANNEL_ID env) as [cid|ex]; simpl; [|intros; by simplify_eq].
  destruct (get_channel env cid); simpl; intros; by simplify_eq.
Qed.

(** X14.  A platform that is not configured.  For a platform that is not
    a key of [self.platforms], a new free record is tracked but no
    message is sent: the lookup of the platform raises before
    [channel.send], and the error is logged. *)
Theorem unknown_platform_loses_the_alert env game_data platform w k :
  platforms_assoc platform platforms = None ->
  free game_data = true ->
  game_key game_data = Ok k ->
  tracked_games w !! k = None ->
  exists w' evs,
    process_game_data env game_data platform w = (Ok tt, w', evs) /\
    notifications evs = 0 /\
    error_logged evs = true /\
    tracked_games w' !! k = Some (clock w).
Proof.
  intros Hnone Hfree Hkey Hnew.
  apply lost_alert; try done.
  intros w0 r w1 evs1. by apply send_game_alert_unknown_platform.
Qed.

Lemma unknown_platform_loses_the_alert_witness :
  exists w' evs,
    process_game_data (env_with JNull true) (record "A1" [JDict []]) "gog" fresh_world
      = (Ok tt, w', evs) /\
    notifications evs = 0 /\
    error_logged evs = true /\
    tracked_games w' !! KStr "A1" = Some (clock fresh_world).
Proof.
  apply (unknown_platform_loses_the_alert (env_with JNull true)
           (record "A1" [JDict []]) "gog" fresh_world (KStr "A1")); reflexivity.
Defined.
